(** * Feedback service: a shallow embedding of [app.py]

    The development models the Flask application of the repository:
    the ingestion endpoint with its enrichment step, the resolution
    endpoint, the filter builder shared by the read endpoints, and the
    metrics and trend aggregations.

    Conventions.
    - Python [float] is IEEE 754 binary64, modelled by [spec_float]
      with the operations of [SpecFloat] at precision 53.
    - A table with an integer primary key is a [gmap Z] of rows.
    - An exception is a value of [exn]; a computation that may raise
      returns a [result].
    - Request parameters and payload strings are ASCII text.
    - The sentiment analyser and the zero-shot classifier are models
      loaded from outside the repository; the handlers take them as
      parameters. *)

From Stdlib Require Import ZArith String Ascii List Lia Bool.
From Stdlib Require Import Floats.SpecFloat.
From stdpp Require Import base option list gmap strings pretty sorting.

#[local] Set Warnings "-register-all".
#[local] Open Scope string_scope.
#[local] Open Scope list_scope.
#[local] Open Scope Z_scope.

(** ** Exceptions and results *)

Inductive exn :=
| ValueError
| OverflowError
| TypeError
| IndexError
| KeyError
| AttributeError
| IntegrityError
| InterfaceError.

Inductive result (A : Type) :=
| Ok (a : A)
| Raise (e : exn).
Arguments Ok {A} a.
Arguments Raise {A} e.

#[global] Instance result_ret : MRet result := λ A a, Ok a.

(** Sequencing: the first exception raised aborts what follows. *)
#[global] Instance result_bind : MBind result := λ A B k r,
  match r with
  | Ok a => k a
  | Raise e => Raise e
  end.

(** ** Floats *)

Module Float.
Definition prec : Z := 53.
Definition emax : Z := 1024.

Abbreviation t := spec_float.

Definition zero : t := S754_zero false.
Definition of_Z (n : Z) : t := binary_normalize prec emax n 0 false.
Definition add (a b : t) : t := SFadd prec emax a b.
Definition div (a b : t) : t := SFdiv prec emax a b.
Definition opp (a : t) : t := SFopp a.

(** [a < b] and [a > b] of Python: false as soon as an operand is NaN. *)
Definition lt (a b : t) : bool := SFltb a b.
Definition gt (a b : t) : bool := SFltb b a.
Definition eqb (a b : t) : bool := SFeqb a b.

(** The literals of [add_feedback], rounded to nearest as the Python
    parser does: [0.2] is [0x1.999999999999ap-3] and [0.1] is
    [0x1.999999999999ap-4]. *)
Definition lit_0_2 : t := S754_finite false 0x1999999999999A (-55).
Definition lit_0_1 : t := S754_finite false 0x1999999999999A (-56).
Definition lit_0_5 : t := S754_finite false 0x10000000000000 (-53).

Definition is_nan (a : t) : bool :=
  match a with S754_nan => true | _ => false end.
End Float.

(** ** Calendar dates and timestamps *)

Record date := Date { year : Z; month : Z; day : Z }.

#[global] Instance date_eq_dec : EqDecision date.
Proof. solve_decision. Defined.

Definition is_leap (y : Z) : bool :=
  (y mod 4 =? 0) && (negb (y mod 100 =? 0) || (y mod 400 =? 0)).

Definition days_in_month (y m : Z) : Z :=
  if m =? 2 then (if is_leap y then 29 else 28)
  else if (m =? 4) || (m =? 6) || (m =? 9) || (m =? 11) then 30
  else 31.

Definition MINYEAR : Z := 1.
Definition MAXYEAR : Z := 9999.

(** The check of the [date] constructor. *)
Definition valid_date (d : date) : bool :=
  (MINYEAR <=? year d) && (year d <=? MAXYEAR) &&
  (1 <=? month d) && (month d <=? 12) &&
  (1 <=? day d) && (day d <=? days_in_month (year d) (month d)).

Definition date_max : date := Date 9999 12 31.

(** Chronological order, field by field. *)
Definition date_compare (a b : date) : comparison :=
  match year a ?= year b with
  | Eq => match month a ?= month b with
          | Eq => day a ?= day b
          | c => c
          end
  | c => c
  end.

Definition date_ltb (a b : date) : bool :=
  match date_compare a b with Lt => true | _ => false end.
Definition date_leb (a b : date) : bool :=
  match date_compare a b with Gt => false | _ => true end.

(** [d + timedelta(days=1)]: the next calendar day, [OverflowError]
    past [date.max]. *)
Definition date_add_day (d : date) : result date :=
  if day d <? days_in_month (year d) (month d) then
    Ok (Date (year d) (month d) (day d + 1))
  else if month d <? 12 then Ok (Date (year d) (month d + 1) 1)
  else if year d <? MAXYEAR then Ok (Date (year d + 1) 1 1)
  else Raise OverflowError.

(** A [datetime]: a date and the microseconds elapsed since midnight. *)
Record datetime := DateTime { dt_date : date; dt_micros : Z }.

Definition micros_per_day : Z := 86400000000.

Definition valid_datetime (t : datetime) : bool :=
  valid_date (dt_date t) && (0 <=? dt_micros t) && (dt_micros t <? micros_per_day).

(** The instant a [date] stands for when it is compared with a
    timestamp: that day at 00:00:00.000000. *)
Definition midnight (d : date) : datetime := DateTime d 0.

Definition datetime_compare (a b : datetime) : comparison :=
  match date_compare (dt_date a) (dt_date b) with
  | Eq => dt_micros a ?= dt_micros b
  | c => c
  end.

Definition datetime_ltb (a b : datetime) : bool :=
  match datetime_compare a b with Lt => true | _ => false end.
Definition datetime_leb (a b : datetime) : bool :=
  match datetime_compare a b with Gt => false | _ => true end.

(** ** Parsing request parameters *)

Definition ord (c : ascii) : Z := Z.of_N (N_of_ascii c).

(** The character is the decimal digit of a value between [lo] and [hi]. *)
Definition digit_in (lo hi : Z) (c : ascii) : bool :=
  (48 + lo <=? ord c) && (ord c <=? 48 + hi).

Definition is_digit (c : ascii) : bool := digit_in 0 9 c.
Definition digit_value (c : ascii) : Z := ord c - 48.
Definition is_char (k : ascii) (c : ascii) : bool := bool_decide (c = k).

(** The group that [strptime] compiles for [%m]: [1[0-2]|0[1-9]|[1-9]],
    alternatives tried from the left. *)
Definition re_month (s : list ascii) : option (Z * list ascii) :=
  match s with
  | c1 :: r =>
      match r with
      | c2 :: r' =>
          if is_char "1" c1 && digit_in 0 2 c2 then Some (10 + digit_value c2, r')
          else if is_char "0" c1 && digit_in 1 9 c2 then Some (digit_value c2, r')
          else if digit_in 1 9 c1 then Some (digit_value c1, r)
          else None
      | [] => if digit_in 1 9 c1 then Some (digit_value c1, r) else None
      end
  | [] => None
  end.

(** The group for [%d]: [3[0-1]|[1-2]\d|0[1-9]|[1-9]| [1-9]]. *)
Definition re_day (s : list ascii) : option (Z * list ascii) :=
  match s with
  | c1 :: r =>
      match r with
      | c2 :: r' =>
          if is_char "3" c1 && digit_in 0 1 c2 then Some (30 + digit_value c2, r')
          else if digit_in 1 2 c1 && is_digit c2 then
            Some (10 * digit_value c1 + digit_value c2, r')
          else if is_char "0" c1 && digit_in 1 9 c2 then Some (digit_value c2, r')
          else if digit_in 1 9 c1 then Some (digit_value c1, r)
          else if is_char " " c1 && digit_in 1 9 c2 then Some (digit_value c2, r')
          else None
      | [] => if digit_in 1 9 c1 then Some (digit_value c1, r) else None
      end
  | [] => None
  end.

(** The group for [%Y]: four digits. *)
Definition re_year (s : list ascii) : option (Z * list ascii) :=
  match s with
  | a :: b :: c :: d :: r =>
      if is_digit a && is_digit b && is_digit c && is_digit d then
        Some (1000 * digit_value a + 100 * digit_value b
              + 10 * digit_value c + digit_value d, r)
      else None
  | _ => None
  end.

Definition re_dash (s : list ascii) : option (list ascii) :=
  match s with
  | c :: r => if is_char "-" c then Some r else None
  | [] => None
  end.

(** [datetime.strptime(s, '%Y-%m-%d').date()]: the pattern must match
    at the start of [s] and consume all of it, and the fields must form
    a date; [ValueError] otherwise. *)
Definition strptime_ymd (s : string) : result date :=
  match re_year (list_ascii_of_string s) with
  | Some (y, r1) =>
      match re_dash r1 with
      | Some r2 =>
          match re_month r2 with
          | Some (m, r3) =>
              match re_dash r3 with
              | Some r4 =>
                  match re_day r4 with
                  | Some (d, []) =>
                      if valid_date (Date y m d) then Ok (Date y m d)
                      else Raise ValueError
                  | _ => Raise ValueError
                  end
              | None => Raise ValueError
              end
          | None => Raise ValueError
          end
      | None => Raise ValueError
      end
  | None => Raise ValueError
  end.

(** White space for [int]: tab to carriage return, the four separators
    [0x1c]-[0x1f], and the space. *)
Definition is_space (c : ascii) : bool :=
  ((9 <=? ord c) && (ord c <=? 13)) || ((28 <=? ord c) && (ord c <=? 32)).

Fixpoint lstrip (s : list ascii) : list ascii :=
  match s with
  | c :: r => if is_space c then lstrip r else s
  | [] => []
  end.

Definition strip (s : list ascii) : list ascii := rev (lstrip (rev (lstrip s))).

(** Digits in base ten, single underscores allowed between two digits. *)
Fixpoint int_digits (acc : Z) (s : list ascii) : option Z :=
  match s with
  | [] => Some acc
  | c :: r =>
      if is_digit c then int_digits (10 * acc + digit_value c) r
      else if is_char "_" c then
        match r with
        | d :: _ => if is_digit d then int_digits acc r else None
        | [] => None
        end
      else None
  end.

Definition int_unsigned (s : list ascii) : option Z :=
  match s with
  | c :: _ => if is_digit c then int_digits 0 s else None
  | [] => None
  end.

(** [int(s)] on a string: [ValueError] unless [s] is, up to surrounding
    white space, an optional sign followed by digits. *)
Definition py_int (s : string) : result Z :=
  match strip (list_ascii_of_string s) with
  | c :: r =>
      if is_char "-" c then
        match int_unsigned r with Some n => Ok (- n) | None => Raise ValueError end
      else if is_char "+" c then
        match int_unsigned r with Some n => Ok n | None => Raise ValueError end
      else
        match int_unsigned (c :: r) with Some n => Ok n | None => Raise ValueError end
  | [] => Raise ValueError
  end.

(** ** Python values *)

(** What [request.get_json()] hands to a view function, and what a view
    function hands to [jsonify]. *)
Inductive json :=
| JNull
| JBool (b : bool)
| JInt (n : Z)
| JFloat (x : Float.t)
| JStr (s : string)
| JArr (l : list json)
| JObj (m : gmap string json).

(** Truth value of an object, as [not data] tests it. *)
Definition py_truthy (v : json) : bool :=
  match v with
  | JNull => false
  | JBool b => b
  | JInt n => negb (n =? 0)
  | JFloat x => negb (Float.eqb x Float.zero)
  | JStr s => negb (bool_decide (s = EmptyString))
  | JArr l => match l with [] => false | _ => true end
  | JObj m => match map_to_list m with [] => false | _ => true end
  end.

Definition is_str (k : string) (v : json) : bool :=
  match v with JStr s => bool_decide (s = k) | _ => false end.

(** [k in v] for a string [k]: a key of a dict, an element of a list,
    a substring of a string; the other types are not containers. *)
Definition py_contains (k : string) (v : json) : result bool :=
  match v with
  | JObj m => Ok (bool_decide (is_Some (m !! k)))
  | JArr l => Ok (existsb (is_str k) l)
  | JStr s => Ok (match String.index 0 k s with Some _ => true | None => false end)
  | _ => Raise TypeError
  end.

(** [v[k]] for a string [k]. *)
Definition py_getitem (v : json) (k : string) : result json :=
  match v with
  | JObj m => match m !! k with Some x => Ok x | None => Raise KeyError end
  | _ => Raise TypeError
  end.

(** [v.get(k)]: [None] for a missing key. *)
Definition py_get (v : json) (k : string) : result json :=
  match v with
  | JObj m => Ok (default JNull (m !! k))
  | _ => Raise AttributeError
  end.

(** [l[0]]. *)
Definition py_first {A} (l : list A) : result A :=
  match l with
  | x :: _ => Ok x
  | [] => Raise IndexError
  end.

(** Truth value of a query parameter: [None] and the empty string are
    false. *)
Definition str_truthy (o : option string) : bool :=
  match o with
  | Some s => negb (bool_decide (s = EmptyString))
  | None => false
  end.

(** ** The two tables *)

Module Store.
Record t := Build {
  id : Z;
  name : json;
  area : json
}.
End Store.

Module Feedback.
Record t := Build {
  id : Z;
  platform : json;
  text : json;
  timestamp : datetime;
  category : option string;
  sentiment : option string;
  sentiment_score : option Float.t;
  store_id : json;
  status : option string
}.

Definition with_status (s : option string) (f : t) : t :=
  Build (id f) (platform f) (text f) (timestamp f) (category f)
        (sentiment f) (sentiment_score f) (store_id f) s.
End Feedback.

(** An event sent to the connected clients by [socketio.emit]. *)
Record event := Emit { event_name : string; event_data : gmap string json }.

(** The database and the events emitted so far. *)
Record state := State {
  feedbacks : gmap Z Feedback.t;
  stores : gmap Z Store.t;
  emitted : list event
}.

Definition initial_state : state := State ∅ ∅ [].

(** The rowid SQLite gives to a new row of a table from which nothing is
    ever deleted: one more than the largest in use. *)
Definition next_rowid {A} (m : gmap Z A) : Z :=
  1 + map_fold (λ k _ acc, Z.max k acc) 0 m.

(** *** What SQLite accepts and stores *)

Definition int64_min : Z := - 2 ^ 63.
Definition int64_max : Z := 2 ^ 63 - 1.

(** Binding a parameter: lists and dicts are refused, as are integers
    outside 64 bits. *)
Definition sqlite_bind (v : json) : result json :=
  match v with
  | JArr _ | JObj _ => Raise InterfaceError
  | JInt n =>
      if (int64_min <=? n) && (n <=? int64_max) then Ok v else Raise OverflowError
  | JFloat x => Ok (if Float.is_nan x then JNull else v)
  | _ => Ok v
  end.

(** A NaN is stored as NULL. *)
Definition sqlite_real (x : Float.t) : option Float.t :=
  if Float.is_nan x then None else Some x.

(** A column declared [nullable=False]. *)
Definition not_null (v : json) : result json :=
  match v with
  | JNull => Raise IntegrityError
  | _ => Ok v
  end.

(** ** HTTP responses *)

Inductive response (A : Type) :=
| Json (code : Z) (payload : A)
| JsonError (code : Z) (error : string)
| Unhandled (e : exn).
Arguments Json {A} code payload.
Arguments JsonError {A} code error.
Arguments Unhandled {A} e.

(** ** The external models *)

(** What the zero-shot pipeline returns: the labels ranked by score and
    their scores. *)
Record classification := Classification {
  labels : list string;
  scores : list Float.t
}.

(** [polarity t] is [TextBlob(t).sentiment.polarity];
    [classifier t ls] is the call [classifier(t, ls)]. *)
Class Analyzers := {
  polarity : string → Float.t;
  classifier : string → list string → result classification
}.

(** [TextBlob(v)] accepts strings only. *)
Definition TextBlob (v : json) : result string :=
  match v with
  | JStr s => Ok s
  | _ => Raise TypeError
  end.

(** ** Ingestion *)

Module Analysis.
Record t := Build {
  category : string;
  category_confidence : Float.t;
  sentiment : string;
  polarity_score : Float.t
}.
End Analysis.

Record added := Added {
  added_message : string;
  added_id : Z;
  analysis : Analysis.t
}.

Definition candidate_labels : list string :=
  ["Quality of food"; "Customer service"; "Speed"; "Ambience"].

(** The three lines that turn the polarity into a label. *)
Definition sentiment_label (p : Float.t) : string :=
  if Float.gt p Float.lit_0_2 then "Positive"
  else if Float.lt p (Float.opp Float.lit_0_1) then "Negative"
  else "Neutral".

(** [not data or 'text' not in data or 'platform' not in data]. *)
Definition missing_required (data : json) : result bool :=
  if negb (py_truthy data) then Ok true
  else
    has_text ← py_contains "text" data;
    if negb has_text then Ok true
    else
      has_platform ← py_contains "platform" data;
      Ok (negb has_platform).

Section ingestion.
Context {analyzers : Analyzers}.

(** From reading the text to the INSERT of the new row: the row, still
    waiting for its id, and the analysis reported to the caller. *)
Definition new_feedback (data : json) (now : datetime)
  : result ((Z → Feedback.t) * Analysis.t) :=
  feedback_text ← py_getitem data "text";
  blob ← TextBlob feedback_text;
  let sentiment := sentiment_label (polarity blob) in
  result ← classifier blob candidate_labels;
  category ← py_first (labels result);
  category_confidence ← py_first (scores result);
  platform ← py_getitem data "platform";
  text ← py_getitem data "text";
  store_id ← py_get data "store_id";
  platform ← sqlite_bind platform ≫= not_null;
  text ← sqlite_bind text ≫= not_null;
  store_id ← sqlite_bind store_id;
  Ok (λ i, Feedback.Build i platform text now (Some category) (Some sentiment)
             (sqlite_real (polarity blob)) store_id (Some "New"),
      Analysis.Build category category_confidence sentiment (polarity blob)).

(** [POST /v1/feedback]; [now] is the value of [datetime.utcnow] that
    the column default takes. *)
Definition add_feedback (data : json) (now : datetime) (st : state)
  : response added * state :=
  match missing_required data with
  | Raise e => (Unhandled e, st)
  | Ok true => (JsonError 400 "Missing required data: platform and text", st)
  | Ok false =>
      match new_feedback data now with
      | Raise e => (Unhandled e, st)
      | Ok (row, an) =>
          let i := next_rowid (feedbacks st) in
          let msg := "New feedback " +:+ pretty i +:+ " added" in
          (Json 201 (Added "Feedback added successfully" i an),
           State (<[i := row i]> (feedbacks st)) (stores st)
                 (emitted st ++ [Emit "new_feedback" {["message" := JStr msg]}]))
      end
  end.

End ingestion.

(** ** Resolution *)

(** [POST /v1/feedback/<id>/resolve]. *)
Definition resolve_feedback (feedback_id : Z) (st : state)
  : response (gmap string json) * state :=
  match feedbacks st !! feedback_id with
  | None => (JsonError 404 "Feedback item not found", st)
  | Some feedback_item =>
      let msg := "Feedback " +:+ pretty feedback_id +:+ " marked as Resolved" in
      (Json 200 {["message" := JStr msg]},
       State (<[feedback_id := Feedback.with_status (Some "Resolved") feedback_item]>
                (feedbacks st))
             (stores st)
             (emitted st ++ [Emit "feedback_resolved" {["id" := JInt feedback_id]}]))
  end.

(** ** Store registration *)

(** [POST /v1/stores]. *)
Definition add_store (data : json) (st : state)
  : response (gmap string json) * state :=
  let missing :=
    if negb (py_truthy data) then Ok true
    else has_name ← py_contains "name" data; Ok (negb has_name) in
  match missing with
  | Raise e => (Unhandled e, st)
  | Ok true => (JsonError 400 "Missing required data: name", st)
  | Ok false =>
      let row :=
        name ← py_getitem data "name";
        area ← py_get data "area";
        name ← sqlite_bind name ≫= not_null;
        area ← sqlite_bind area;
        Ok (λ i, Store.Build i name area) in
      match row with
      | Raise e => (Unhandled e, st)
      | Ok new_store =>
          let i := next_rowid (stores st) in
          (Json 201 {["message" := JStr "Store added"; "id" := JInt i]},
           State (feedbacks st) (<[i := new_store i]> (stores st)) (emitted st))
      end
  end.

(** ** The filter builder *)

(** The query parameters, as [request.args.get] returns them: [None]
    for a parameter that is absent. *)
Module Args.
Record t := Build {
  start : option string;
  end_ : option string;
  store_id : option string;
  area : option string;
  status : option string
}.
End Args.

(** One [filter] of a query, not evaluated yet. *)
Inductive criterion :=
| StoreAreaEq (a : string)   (* join(Store).filter(Store.area == a) *)
| TimestampGe (d : date)     (* Feedback.timestamp >= d *)
| TimestampLt (d : date)     (* Feedback.timestamp < d *)
| StoreIdEq (n : Z)          (* Feedback.store_id == n *)
| StatusEq (s : string).     (* Feedback.status == s *)

(** [Feedback.query] is the empty list; [filter] adds a criterion. *)
Abbreviation Query := (list criterion).

(** [if s:] on a parameter: the string when it is present and not empty. *)
Definition given (o : option string) : option string :=
  if str_truthy o then o else None.

(** [build_filtered_query]: [Ok None] is the [return None] of the
    handler of [ValueError]; any other exception escapes. *)
Definition build_filtered_query (a : Args.t) : result (option Query) :=
  let query : Query := [] in
  let query :=
    match given (Args.area a) with
    | Some area_str => query ++ [StoreAreaEq area_str]
    | None => query
    end in
  let body : result Query :=
    query ← match given (Args.start a) with
            | Some start_date_str =>
                start_date ← strptime_ymd start_date_str;
                Ok (query ++ [TimestampGe start_date])
            | None => Ok query
            end;
    query ← match given (Args.end_ a) with
            | Some end_date_str =>
                end_date ← strptime_ymd end_date_str;
                bound ← date_add_day end_date;
                Ok (query ++ [TimestampLt bound])
            | None => Ok query
            end;
    query ← match given (Args.store_id a) with
            | Some store_id_str =>
                n ← py_int store_id_str;
                Ok (query ++ [StoreIdEq n])
            | None => Ok query
            end;
    query ← match given (Args.status a) with
            | Some status_str => Ok (query ++ [StatusEq status_str])
            | None => Ok query
            end;
    Ok query in
  match body with
  | Ok query => Ok (Some query)
  | Raise ValueError => Ok None
  | Raise e => Raise e
  end.

(** *** Running a query *)

(** Whether a row passes a criterion. A comparison with NULL is not
    true. Stored values are compared as they were bound: the conversions
    of SQLite's column affinities are left out. SQLite compares a stored
    timestamp, the text [YYYY-MM-DD HH:MM:SS.ffffff], with the text bound
    for the date; the outcome is that of comparing the timestamp with
    the start of that day, whether the date is bound as [YYYY-MM-DD] or
    as [YYYY-MM-DD 00:00:00.000000]. *)
Definition sql_matches (st : state) (f : Feedback.t) (c : criterion) : bool :=
  match c with
  | StoreAreaEq a =>
      match Feedback.store_id f with
      | JInt n =>
          match stores st !! n with
          | Some s => is_str a (Store.area s)
          | None => false
          end
      | _ => false
      end
  | TimestampGe d => datetime_leb (midnight d) (Feedback.timestamp f)
  | TimestampLt d => datetime_ltb (Feedback.timestamp f) (midnight d)
  | StoreIdEq n =>
      match Feedback.store_id f with
      | JInt m => m =? n
      | _ => false
      end
  | StatusEq s =>
      match Feedback.status f with
      | Some x => bool_decide (x = s)
      | None => false
      end
  end.

Definition passes (st : state) (q : Query) (f : Feedback.t) : bool :=
  forallb (sql_matches st f) q.

(** The parameters of a query are bound when it runs. *)
Definition bind_criterion (c : criterion) : result criterion :=
  match c with
  | StoreIdEq n => _ ← sqlite_bind (JInt n); Ok c
  | _ => Ok c
  end.

(** The rows a query selects, in no particular order. *)
Definition run_query (st : state) (q : Query) : result (list Feedback.t) :=
  _ ← mapM bind_criterion q;
  Ok (filter (λ f, passes st q f = true) (snd <$> map_to_list (feedbacks st))).

(** ** Rendering and aggregates *)

Definition digit_char (n : Z) : ascii := ascii_of_N (Z.to_N (48 + n mod 10)).

(** Decimal rendering on two, four and six digits, padded with zeros. *)
Definition pad2 (n : Z) : string :=
  String (digit_char (n / 10)) (String (digit_char n) EmptyString).
Definition pad4 (n : Z) : string := pad2 (n / 100) +:+ pad2 n.
Definition pad6 (n : Z) : string := pad2 (n / 10000) +:+ pad4 n.

(** [YYYY-MM-DD]: [date.isoformat()], and what SQLite's
    [strftime('%Y-%m-%d', ...)] returns for a stored timestamp. *)
Definition isoformat_date (d : date) : string :=
  pad4 (year d) +:+ "-" +:+ pad2 (month d) +:+ "-" +:+ pad2 (day d).

(** [datetime.isoformat()]: the microseconds are printed unless zero. *)
Definition isoformat (t : datetime) : string :=
  let us := dt_micros t in
  isoformat_date (dt_date t) +:+ "T" +:+ pad2 (us / 3600000000) +:+ ":"
    +:+ pad2 (us / 60000000 mod 60) +:+ ":" +:+ pad2 (us / 1000000 mod 60)
    +:+ (if us mod 1000000 =? 0 then EmptyString else "." +:+ pad6 (us mod 1000000)).

Definition strftime_ymd (t : datetime) : string := isoformat_date (dt_date t).

Definition json_of_str (o : option string) : json := from_option JStr JNull o.
Definition json_of_float (o : option Float.t) : json := from_option JFloat JNull o.

(** [GROUP BY key]: one group per distinct key, holding the rows that
    have it. *)
Definition group_by {A K} `{EqDecision K} (key : A → K) (rows : list A)
  : list (K * list A) :=
  (λ k, (k, filter (λ r, key r = k) rows)) <$> remove_dups (key <$> rows).

(** [count(Feedback.id)]: the primary key is never NULL. *)
Definition sql_count (rows : list Feedback.t) : Z := Z.of_nat (length rows).

Definition float_sum (xs : list Float.t) : Float.t := foldl Float.add Float.zero xs.

(** [avg(x)]: NULL values are skipped; the sum of the others, accumulated
    in a double, is divided by their number; NULL when there is none. *)
Definition sql_avg (xs : list (option Float.t)) : option Float.t :=
  match omap (λ x, x) xs with
  | [] => None
  | ys => Some (Float.div (float_sum ys) (Float.of_Z (Z.of_nat (length ys))))
  end.

Definition avg_score (rows : list Feedback.t) : option Float.t :=
  sql_avg (Feedback.sentiment_score <$> rows).

(** ** Listing *)

Definition by_timestamp_desc (a b : Feedback.t) : Prop :=
  datetime_leb (Feedback.timestamp b) (Feedback.timestamp a) = true.

#[global] Instance by_timestamp_desc_dec : RelDecision by_timestamp_desc.
Proof. intros a b. unfold by_timestamp_desc. apply _. Defined.

Definition feedback_dict (feedback : Feedback.t) : gmap string json :=
  {[ "id" := JInt (Feedback.id feedback);
     "platform" := Feedback.platform feedback;
     "text" := Feedback.text feedback;
     "timestamp" := JStr (isoformat (Feedback.timestamp feedback));
     "category" := json_of_str (Feedback.category feedback);
     "sentiment" := json_of_str (Feedback.sentiment feedback);
     "sentiment_score" := json_of_float (Feedback.sentiment_score feedback);
     "store_id" := Feedback.store_id feedback;
     "status" := json_of_str (Feedback.status feedback) ]}.

(** [GET /v1/feedback]. *)
Definition get_feedback (a : Args.t) (st : state)
  : response (list (gmap string json)) :=
  match build_filtered_query a with
  | Raise e => Unhandled e
  | Ok None => JsonError 400 "Invalid date format"
  | Ok (Some query) =>
      match run_query st query with
      | Raise e => Unhandled e
      | Ok rows => Json 200 (feedback_dict <$> merge_sort by_timestamp_desc rows)
      end
  end.

(** ** Metrics *)

Record metrics := Metrics {
  total_feedback : Z;
  feedback_by_sentiment : gmap string Z;
  feedback_by_category : gmap (option string) (gmap string json)
}.

(** The rows of the query grouped by category. *)
Definition category_metrics (rows : list Feedback.t)
  : list (option string * Z * option Float.t) :=
  (λ g, (g.1, sql_count g.2, avg_score g.2)) <$> group_by Feedback.category rows.

(** The loop that fills [categories]. *)
Definition categories_of (rows : list Feedback.t)
  : gmap (option string) (gmap string json) :=
  foldl (λ categories '(c, count, avg),
           <[c := {[ "count" := JInt count;
                     "average_sentiment_score" := json_of_float avg ]}]> categories)
        ∅ (category_metrics rows).

(** The rows of the query grouped by sentiment. *)
Definition sentiment_counts (rows : list Feedback.t) : list (option string * Z) :=
  (λ g, (g.1, sql_count g.2)) <$> group_by Feedback.sentiment rows.

(** [s in sentiments], where [s] may be [None]. *)
Definition py_in_dict {V} (s : option string) (d : gmap string V) : bool :=
  match s with
  | Some k => bool_decide (is_Some (d !! k))
  | None => false
  end.

(** The loop that fills [sentiments]. *)
Definition sentiments_of (rows : list Feedback.t) : gmap string Z :=
  foldl (λ sentiments '(s, count),
           match s with
           | Some k => if py_in_dict s sentiments then <[k := count]> sentiments
                       else sentiments
           | None => sentiments
           end)
        {[ "Positive" := 0; "Negative" := 0; "Neutral" := 0 ]}
        (sentiment_counts rows).

(** What [get_metrics] reports for the rows of a query. *)
Definition metrics_of (rows : list Feedback.t) : metrics :=
  Metrics (Z.of_nat (length rows)) (sentiments_of rows) (categories_of rows).

(** [GET /v1/metrics]. *)
Definition get_metrics (a : Args.t) (st : state) : response metrics :=
  match build_filtered_query a with
  | Raise e => Unhandled e
  | Ok None => JsonError 400 "Invalid date format"
  | Ok (Some query) =>
      match run_query st query with
      | Raise e => Unhandled e
      | Ok rows => Json 200 (metrics_of rows)
      end
  end.

(** ** Trend *)

Definition by_date (a b : string * option Float.t) : Prop :=
  String.leb a.1 b.1 = true.

#[global] Instance by_date_dec : RelDecision by_date.
Proof. intros a b. unfold by_date. apply _. Defined.

(** The rows of the query grouped by day and ordered by date. *)
Definition daily_trend (rows : list Feedback.t) : list (string * option Float.t) :=
  merge_sort by_date
    ((λ g, (g.1, avg_score g.2)) <$> group_by (strftime_ymd ∘ Feedback.timestamp) rows).

Definition trend_dict (row : string * option Float.t) : gmap string json :=
  {[ "date" := JStr row.1; "average_sentiment" := json_of_float row.2 ]}.

Definition trend_of (rows : list Feedback.t) : list (gmap string json) :=
  trend_dict <$> daily_trend rows.

(** [GET /v1/metrics/trend]. *)
Definition get_metrics_trend (a : Args.t) (st : state)
  : response (list (gmap string json)) :=
  match build_filtered_query a with
  | Raise e => Unhandled e
  | Ok None => JsonError 400 "Invalid date format"
  | Ok (Some query) =>
      match run_query st query with
      | Raise e => Unhandled e
      | Ok rows => Json 200 (trend_of rows)
      end
  end.

(** ** Store listing *)

Definition store_dict (store : Store.t) : gmap string json :=
  {[ "id" := JInt (Store.id store);
     "name" := Store.name store;
     "area" := Store.area store ]}.

(** [GET /v1/stores]; [area] is [request.args.get('area')]. *)
Definition get_stores (area : option string) (st : state)
  : response (list (gmap string json)) :=
  let query := snd <$> map_to_list (stores st) in
  let query :=
    match given area with
    | Some area_str => filter (λ s, is_str area_str (Store.area s) = true) query
    | None => query
    end in
  Json 200 (store_dict <$> query).

(** ** The scraper: [scrape.py] *)

(** How [requests.post] ends: the server answers with a status code,
    the connection fails, or another exception of [requests] is
    raised. *)
Inductive reply :=
| Replied (status_code : Z)
| ConnectionError
| RequestException.

(** The scraper as seen from outside: the payloads it has tried to
    post and the lines it has printed. *)
Record world := World {
  attempts : list json;
  printed : list string
}.

Definition print (line : string) (w : world) : world :=
  World (attempts w) (printed w ++ [line]).

(** [s.strip()]. *)
Definition py_strip (s : string) : string :=
  string_of_list_ascii (strip (list_ascii_of_string s)).

(** How a call of [post_feedback_to_api] ends: it returns, or an
    exception it does not handle leaves it. *)
Inductive posted :=
| Returned (b : bool)
| Escaped.

(** How the loop over the reviews ends: it runs out of reviews, it
    breaks, an exception of [requests] leaves it for the handler of
    [scrape_live_website], or a tag is missing and [AttributeError]
    leaves the script. *)
Inductive ending :=
| Finished
| Stopped
| Caught
| Crashed.

Definition scrape_payload (platform text : string) (store_id : Z) : json :=
  JObj {[ "platform" := JStr platform; "text" := JStr text;
          "store_id" := JInt store_id ]}.

Section scraper.

(** The reply of the API to a payload, given the payloads tried
    before. *)
Variable server : list json → json → reply.

Definition post_feedback_to_api (platform text : string) (store_id : Z) (w : world)
  : posted * world :=
  let payload := scrape_payload platform text store_id in
  let response := server (attempts w) payload in
  let w := World (attempts w ++ [payload]) (printed w) in
  match response with
  | Replied status_code =>
      if status_code =? 201 then
        (Returned true, print ("  > Successfully posted: " +:+ text) w)
      else
        (Returned true,
         print ("  > Error posting feedback. Status code: " +:+ pretty status_code) w)
  | ConnectionError =>
      (Returned false,
       print "Error: Could not connect to the API. Is your Flask server running?" w)
  | RequestException => (Escaped, w)
  end.

(** The loop of [scrape_live_website] over the reviews found; a review
    is given by the text of its [span] of class [text] and of its
    [small] of class [author], [None] for a tag that is not there. *)
Fixpoint post_reviews (reviews : list (option string * option string)) (w : world)
  : ending * world :=
  match reviews with
  | [] => (Finished, w)
  | (span, small) :: reviews =>
      match span with
      | None => (Crashed, w)
      | Some span_text =>
          let text := py_strip span_text in
          match small with
          | None => (Crashed, w)
          | Some small_text =>
              let platform := py_strip small_text in
              let store_id := 1 in
              let w :=
                print (String (ascii_of_nat 10)
                         ("Processing quote from " +:+ platform +:+ "...")) w in
              match post_feedback_to_api platform text store_id w with
              | (Returned true, w) => post_reviews reviews w
              | (Returned false, w) => (Stopped, w)
              | (Escaped, w) => (Caught, w)
              end
          end
      end
  end.

End scraper.

(** The payload the scraper posts for a review that has both tags. *)
Definition review_payload (r : string * string) : json :=
  scrape_payload (py_strip r.2) (py_strip r.1) 1.

Definition review_tags (r : string * string) : option string * option string :=
  (Some r.1, Some r.2).

(** ** The service as a transition system *)

Inductive request :=
| PostFeedback (data : json) (now : datetime)
| PostResolve (feedback_id : Z)
| PostStore (data : json)
| GetFeedback (a : Args.t)
| GetMetrics (a : Args.t)
| GetMetricsTrend (a : Args.t).

Section service.
Context {analyzers : Analyzers}.

(** The state a request leaves behind; the read endpoints change
    nothing. *)
Definition step (st : state) (r : request) : state :=
  match r with
  | PostFeedback data now => (add_feedback data now st).2
  | PostResolve feedback_id => (resolve_feedback feedback_id st).2
  | PostStore data => (add_store data st).2
  | GetFeedback _ | GetMetrics _ | GetMetricsTrend _ => st
  end.

Definition run (rs : list request) : state := foldl step initial_state rs.

End service.

(** ** Properties of rows and of the external models *)

(** The six columns the application always fills. *)
Definition complete (f : Feedback.t) : Prop :=
  Feedback.platform f ≠ JNull ∧ Feedback.text f ≠ JNull ∧
  is_Some (Feedback.category f) ∧ is_Some (Feedback.sentiment f) ∧
  is_Some (Feedback.sentiment_score f) ∧ is_Some (Feedback.status f).

(** The invariant of the feedback table. *)
Definition all_complete (st : state) : Prop :=
  ∀ i f, feedbacks st !! i = Some f → complete f.

(** Two rows that differ in their status at most. *)
Definition same_but_status (f g : Feedback.t) : Prop :=
  Feedback.with_status (Feedback.status g) f = g.

(** The sentiment analyser returns a number. *)
Definition polarity_is_number {analyzers : Analyzers} : Prop :=
  ∀ t, Float.is_nan (polarity t) = false.

(** The classifier ranks the labels it was given and no others. *)
Definition ranks_candidates {analyzers : Analyzers} : Prop :=
  ∀ t ls r, classifier t ls = Ok r → ∀ l, l ∈ labels r → l ∈ ls.


(** The rows of a list that fall on a given day, have a given category,
    a given sentiment. *)
Definition on_day (d : date) (rows : list Feedback.t) : list Feedback.t :=
  filter (λ f, dt_date (Feedback.timestamp f) = d) rows.
Definition in_category (c : option string) (rows : list Feedback.t) : list Feedback.t :=
  filter (λ f, Feedback.category f = c) rows.
Definition with_sentiment (s : string) (rows : list Feedback.t) : list Feedback.t :=
  filter (λ f, Feedback.sentiment f = Some s) rows.

Definition date_lt (a b : date) : Prop := date_ltb a b = true.
Definition date_le (a b : date) : Prop := date_leb a b = true.

#[global] Instance date_le_dec : RelDecision date_le.
Proof. intros a b. unfold date_le. apply _. Defined.

(** The order in which SQLite sorts text: byte by byte, a prefix first. *)
Definition string_le (s t : string) : Prop := String.leb s t = true.

(** The entry of a day in the trend: its date and the average of the
    scores of its rows. *)
Definition trend_entry (rows : list Feedback.t) (d : date) : gmap string json :=
  {[ "date" := JStr (isoformat_date d);
     "average_sentiment" := json_of_float (avg_score (on_day d rows)) ]}.

(** The entry of a category in [feedback_by_category]: the number of its
    rows and the average of their scores. *)
Definition category_entry (rows : list Feedback.t) (c : option string)
  : gmap string json :=
  {[ "count" := JInt (Z.of_nat (length (in_category c rows)));
     "average_sentiment_score" := json_of_float (avg_score (in_category c rows)) ]}.

(** The number under [count] in an entry of [feedback_by_category], and
    the sum of these numbers over the dict. *)
Definition entry_count (e : gmap string json) : Z :=
  match e !! "count" with
  | Some (JInt n) => n
  | _ => 0
  end.

Definition sum_of_counts (d : gmap (option string) (gmap string json)) : Z :=
  foldr (λ kv acc, entry_count kv.2 + acc) 0 (map_to_list d).

(** The sentiment of a row is one of the three labels. *)
Definition labelled (f : Feedback.t) : Prop :=
  ∃ s, s ∈ ["Positive"; "Negative"; "Neutral"] ∧ Feedback.sentiment f = Some s.

(** An event that tells of something the feedback table holds: a new
    item that is stored, or a resolution of an item that is stored with
    the status Resolved. *)
Definition announces (st : state) (e : event) : Prop :=
  (∃ i, e = Emit "new_feedback"
              {["message" := JStr ("New feedback " +:+ pretty i +:+ " added")]} ∧
        is_Some (feedbacks st !! i)) ∨
  (∃ i f, e = Emit "feedback_resolved" {["id" := JInt i]} ∧
          feedbacks st !! i = Some f ∧ Feedback.status f = Some "Resolved").

(** ** Sample data *)

(** Analysers that give every text the polarity [p] and rank the
    candidate labels in the order received. *)
Definition constant_analyzers (p : Float.t) : Analyzers := {|
  polarity := λ _, p;
  classifier := λ _ ls, Ok (Classification ls ((λ _, Float.lit_0_5) <$> ls))
|}.

(** Analysers whose classifier fails with [e] on every text. *)
Definition unavailable_classifier (p : Float.t) (e : exn) : Analyzers := {|
  polarity := λ _, p;
  classifier := λ _ _, Raise e
|}.

Definition sample_payload : json :=
  JObj {[ "platform" := JStr "web"; "text" := JStr "Service was terrible and slow" ]}.

Definition sample_time : datetime := DateTime (Date 2024 1 1) 3600000001.

Definition sample_row (i : Z) (score : Float.t) (status : string) : Feedback.t :=
  Feedback.Build i (JStr "web") (JStr "Too slow") sample_time (Some "Speed")
    (Some (sentiment_label score)) (Some score) JNull (Some status).

Definition no_args : Args.t := Args.Build None None None None None.

(** The request that filters on the status alone. *)
Definition status_args (s : string) : Args.t :=
  Args.Build None None None None (Some s).

(** The request that filters on the area alone. *)
Definition area_args (a : string) : Args.t :=
  Args.Build None None None (Some a) None.

(** * Verification *)

(** ** Sequencing of results *)

Lemma bind_Ok {A B} (r : result A) (k : A → result B) (b : B) :
  r ≫= k = Ok b → ∃ a, r = Ok a ∧ k a = Ok b.
Proof. destruct r as [a|e]; [eauto | discriminate]. Qed.

Ltac inv_bind H :=
  let a := fresh "a" in
  let Ha := fresh "Ha" in
  let H' := fresh in
  apply bind_Ok in H; destruct H as (a & Ha & H'); rename H' into H.

(** ** Ingestion *)

Lemma next_rowid_above {A} (m : gmap Z A) (k : Z) :
  is_Some (m !! k) → k < next_rowid m.
Proof.
  unfold next_rowid.
  induction m as [|i x m Hi Hfold IH] using map_first_key_ind.
  - rewrite lookup_empty. by intros [? ?].
  - rewrite map_fold_insert_first_key by done.
    destruct (decide (i = k)) as [->|Hne].
    + intros _. lia.
    + rewrite lookup_insert_ne by done. intros Hk%IH. lia.
Qed.

(** The id given to a new row is not in use. *)
Lemma next_rowid_fresh {A} (m : gmap Z A) : m !! next_rowid m = None.
Proof.
  apply eq_None_not_Some. intros Hk%next_rowid_above. lia.
Qed.

Section ingestion_facts.
Context {analyzers : Analyzers}.

(** What a successful enrichment looks like. *)
Lemma new_feedback_Ok data now row an :
  new_feedback data now = Ok (row, an) →
  ∃ m t r c conf p p' sid,
    data = JObj m ∧ m !! "text" = Some (JStr t) ∧
    classifier t candidate_labels = Ok r ∧
    py_first (labels r) = Ok c ∧ py_first (scores r) = Ok conf ∧
    m !! "platform" = Some p ∧ sqlite_bind p ≫= not_null = Ok p' ∧
    sqlite_bind (default JNull (m !! "store_id")) = Ok sid ∧
    row = (λ i, Feedback.Build i p' (JStr t) now (Some c)
                  (Some (sentiment_label (polarity t)))
                  (sqlite_real (polarity t)) sid (Some "New")) ∧
    an = Analysis.Build c conf (sentiment_label (polarity t)) (polarity t).
Proof.
  unfold new_feedback. intros E.
  inv_bind E. destruct data as [| | | | |l|m]; try discriminate Ha.
  simpl in Ha. destruct (m !! "text") as [v|] eqn:Ht; [|discriminate].
  injection Ha as ->.
  inv_bind E. destruct a as [| | | |t| |]; try discriminate Ha. injection Ha as <-.
  inv_bind E. rename a into r, Ha into Hr.
  inv_bind E. rename a into c, Ha into Hc.
  inv_bind E. rename a into conf, Ha into Hconf.
  inv_bind E. simpl in Ha. destruct (m !! "platform") as [p|] eqn:Hp; [|discriminate].
  injection Ha as <-.
  inv_bind E. simpl in Ha. rewrite Ht in Ha. injection Ha as <-.
  inv_bind E. simpl in Ha. injection Ha as <-.
  inv_bind E. rename a into p', Ha into Hp'.
  inv_bind E. simpl in Ha. injection Ha as <-.
  inv_bind E. rename a into sid, Ha into Hsid.
  injection E as <- <-.
  exists m, t, r, c, conf, p, p', sid. done.
Qed.

(** What a successful ingestion looks like. *)
Lemma add_feedback_Json data now st code body st' :
  add_feedback data now st = (Json code body, st') →
  ∃ row an,
    new_feedback data now = Ok (row, an) ∧
    code = 201 ∧
    body = Added "Feedback added successfully" (next_rowid (feedbacks st)) an ∧
    feedbacks st' = <[next_rowid (feedbacks st) := row (next_rowid (feedbacks st))]> (feedbacks st) ∧
    stores st' = stores st.
Proof.
  unfold add_feedback. intros E.
  destruct (missing_required data) as [[]|]; try discriminate E.
  destruct (new_feedback data now) as [[row an]|]; try discriminate E.
  injection E as <- <- <-. by exists row, an.
Qed.

(** A request that does not answer 201 leaves the state alone. *)
Lemma add_feedback_failed data now st r st' :
  add_feedback data now st = (r, st') →
  (∀ code body, r ≠ Json code body) → st' = st.
Proof.
  unfold add_feedback. intros E Hr.
  destruct (missing_required data) as [[]|]; try (by injection E as <- <-).
  destruct (new_feedback data now) as [[row an]|]; try (by injection E as <- <-).
  injection E as <- <-. by destruct (Hr 201 (Added "Feedback added successfully" (next_rowid (feedbacks st)) an)).
Qed.

(** An ingestion leaves the rows already stored as they are. *)
Lemma add_feedback_keeps data now st i f :
  feedbacks st !! i = Some f → feedbacks (add_feedback data now st).2 !! i = Some f.
Proof.
  intros Hf. destruct (add_feedback data now st) as [r st'] eqn:E. simpl.
  destruct r as [code body|code err|e].
  - apply add_feedback_Json in E as (row & an & _ & _ & _ & -> & _).
    rewrite lookup_insert_ne; [done|].
    intros Hi. rewrite <- Hi, next_rowid_fresh in Hf. discriminate.
  - by rewrite (add_feedback_failed _ _ _ _ _ E).
  - by rewrite (add_feedback_failed _ _ _ _ _ E).
Qed.

End ingestion_facts.

(** ** The threshold rule *)

Section float_order.
Variables (ma mb : positive) (ea eb : Z).
Let a : Float.t := S754_finite false ma ea.
Let b : Float.t := S754_finite true mb eb.

(** Nothing lies both below a negative and above a positive number. *)
Lemma below_negative_not_above_positive (p : Float.t) :
  Float.lt p b = true → Float.gt p a = false.
Proof.
  unfold Float.lt, Float.gt, SFltb, a, b.
  destruct p as [[]|[]| |[] m e]; simpl; congruence.
Qed.

(** A number equal to a positive one is neither above it nor below a
    negative one. *)
Lemma equal_positive_between (p : Float.t) :
  Float.eqb p a = true → Float.gt p a = false ∧ Float.lt p b = false.
Proof.
  unfold Float.eqb, Float.lt, Float.gt, SFeqb, SFltb, a, b.
  destruct p as [[]|[]| |[] m e]; simpl; try (intros; split; congruence).
  destruct (e ?= ea) eqn:He; try congruence.
  apply Z.compare_eq in He as ->.
  destruct (PosDef.Pos.compare_cont Eq m ma) eqn:Hm; try congruence.
  apply Pos.compare_eq in Hm as ->.
  rewrite Z.compare_refl.
  change (PosDef.Pos.compare_cont Eq ma ma) with (Pos.compare ma ma).
  by rewrite Pos.compare_refl.
Qed.

(** A number equal to a negative one is neither below it nor above a
    positive one. *)
Lemma equal_negative_between (p : Float.t) :
  Float.eqb p b = true → Float.gt p a = false ∧ Float.lt p b = false.
Proof.
  unfold Float.eqb, Float.lt, Float.gt, SFeqb, SFltb, a, b.
  destruct p as [[]|[]| |[] m e]; simpl; try (intros; split; congruence).
  destruct (e ?= eb) eqn:He; try (simpl; congruence).
  apply Z.compare_eq in He as ->.
  destruct (PosDef.Pos.compare_cont Eq m mb) eqn:Hm; try (simpl; congruence).
  apply Pos.compare_eq in Hm as ->. done.
Qed.

End float_order.

(** The label as a function of the two comparisons of the source,
    and at the two thresholds themselves. *)
Lemma sentiment_label_rule (p : Float.t) :
  (Float.gt p Float.lit_0_2 = true → sentiment_label p = "Positive") ∧
  (Float.lt p (Float.opp Float.lit_0_1) = true → sentiment_label p = "Negative") ∧
  (Float.gt p Float.lit_0_2 = false →
   Float.lt p (Float.opp Float.lit_0_1) = false → sentiment_label p = "Neutral") ∧
  (Float.eqb p Float.lit_0_2 = true → sentiment_label p = "Neutral") ∧
  (Float.eqb p (Float.opp Float.lit_0_1) = true → sentiment_label p = "Neutral").
Proof.
  pose (m := 0x1999999999999A%positive).
  assert (Hpn : Float.lt p (Float.opp Float.lit_0_1) = true →
                Float.gt p Float.lit_0_2 = false)
    by exact (below_negative_not_above_positive m m (-55) (-56) p).
  assert (Hp : Float.eqb p Float.lit_0_2 = true →
               Float.gt p Float.lit_0_2 = false ∧
               Float.lt p (Float.opp Float.lit_0_1) = false)
    by exact (equal_positive_between m m (-55) (-56) p).
  assert (Hn : Float.eqb p (Float.opp Float.lit_0_1) = true →
               Float.gt p Float.lit_0_2 = false ∧
               Float.lt p (Float.opp Float.lit_0_1) = false)
    by exact (equal_negative_between m m (-55) (-56) p).
  clearbody m. unfold sentiment_label.
  split; [intros E; rewrite E; reflexivity|].
  split; [intros E; rewrite (Hpn E), E; reflexivity|].
  split; [intros E1 E2; rewrite E1, E2; reflexivity|].
  split; intros E; [destruct (Hp E) as [E1 E2] | destruct (Hn E) as [E1 E2]];
    rewrite E1, E2; reflexivity.
Qed.

(** At the thresholds and just beyond them: [0.2] and [-0.1] are
    Neutral, [0.2000001] is Positive and [-0.1000001] is Negative. *)
Example sentiment_label_boundaries :
  sentiment_label Float.lit_0_2 = "Neutral" ∧
  sentiment_label (S754_finite false 0x19999A70592E6F (-55)) = "Positive" ∧
  sentiment_label (Float.opp Float.lit_0_1) = "Neutral" ∧
  sentiment_label (S754_finite true 0x19999B4718C345 (-56)) = "Negative" ∧
  sentiment_label Float.zero = "Neutral" ∧
  sentiment_label S754_nan = "Neutral".
Proof. vm_compute. repeat split. Qed.

(** C1. An ingestion that succeeds stores and reports the label that the
    threshold rule gives to the polarity of the text: Positive when the
    polarity is above 0.2, Negative when it is below -0.1, Neutral
    otherwise, and Neutral in particular when the polarity equals 0.2 or
    -0.1. *)
Theorem sentiment_follows_thresholds {analyzers : Analyzers} data now st code body st' :
  add_feedback data now st = (Json code body, st') →
  ∃ t row,
    py_getitem data "text" = Ok (JStr t) ∧
    feedbacks st' !! added_id body = Some row ∧
    Analysis.polarity_score (analysis body) = polarity t ∧
    Feedback.sentiment_score row = sqlite_real (polarity t) ∧
    Feedback.sentiment row = Some (Analysis.sentiment (analysis body)) ∧
    let label := Analysis.sentiment (analysis body) in
    (Float.gt (polarity t) Float.lit_0_2 = true → label = "Positive") ∧
    (Float.lt (polarity t) (Float.opp Float.lit_0_1) = true → label = "Negative") ∧
    (Float.gt (polarity t) Float.lit_0_2 = false →
     Float.lt (polarity t) (Float.opp Float.lit_0_1) = false → label = "Neutral") ∧
    (Float.eqb (polarity t) Float.lit_0_2 = true → label = "Neutral") ∧
    (Float.eqb (polarity t) (Float.opp Float.lit_0_1) = true → label = "Neutral").
Proof.
  intros E.
  apply add_feedback_Json in E as (row & an & E & -> & -> & Hf & _).
  apply new_feedback_Ok in E
    as (m & t & r & c & conf & p & p' & sid & -> & Ht & _ & _ & _ & _ & _ & _ & -> & ->).
  exists t, (Feedback.Build (next_rowid (feedbacks st)) p' (JStr t) now (Some c)
               (Some (sentiment_label (polarity t))) (sqlite_real (polarity t))
               sid (Some "New")).
  split; [simpl; by rewrite Ht|].
  split; [rewrite Hf; apply lookup_insert_eq|].
  repeat (split; [reflexivity|]).
  apply sentiment_label_rule.
Qed.

Lemma sentiment_follows_thresholds_witness :
  ∃ t row,
    py_getitem sample_payload "text" = Ok (JStr t) ∧
    feedbacks (add_feedback (analyzers := constant_analyzers (Float.opp Float.lit_0_5))
                 sample_payload sample_time initial_state).2 !! 1 = Some row ∧
    Feedback.sentiment row = Some "Negative".
Proof.
  destruct (sentiment_follows_thresholds
              (analyzers := constant_analyzers (Float.opp Float.lit_0_5))
              sample_payload sample_time initial_state 201
              (Added "Feedback added successfully" 1
                 (Analysis.Build "Quality of food" Float.lit_0_5 "Negative"
                    (Float.opp Float.lit_0_5)))
              (add_feedback (analyzers := constant_analyzers (Float.opp Float.lit_0_5))
                 sample_payload sample_time initial_state).2
              eq_refl)
    as (t & row & Ht & Hrow & _ & _ & Hs & _).
  exists t, row. repeat split; assumption.
Defined.

(** ** Resolution *)

Lemma with_status_same (f : Feedback.t) :
  Feedback.with_status (Feedback.status f) f = f.
Proof. by destruct f. Qed.

(** C7. Resolving an item that exists answers 200 and publishes
    [feedback_resolved] with the item's id, whatever its status was; when
    the status was already Resolved the two tables are left as they
    were. *)
Theorem resolve_resolved_is_idempotent (feedback_id : Z) (st : state) (f : Feedback.t) :
  feedbacks st !! feedback_id = Some f →
  ∃ msg st',
    resolve_feedback feedback_id st = (Json 200 {["message" := JStr msg]}, st') ∧
    emitted st' = emitted st ++ [Emit "feedback_resolved" {["id" := JInt feedback_id]}] ∧
    (∃ g, feedbacks st' !! feedback_id = Some g ∧
          Feedback.status g = Some "Resolved") ∧
    (Feedback.status f = Some "Resolved" →
     feedbacks st' = feedbacks st ∧ stores st' = stores st).
Proof.
  intros Hf. unfold resolve_feedback. rewrite Hf.
  eexists _, _. split; [reflexivity|]. simpl.
  split; [reflexivity|].
  split; [eexists; split; [apply lookup_insert_eq | reflexivity]|].
  intros Hs. split; [|reflexivity].
  apply insert_id. by rewrite <- Hs, with_status_same.
Qed.

Lemma resolve_resolved_is_idempotent_witness :
  let st := State {[ 7 := sample_row 7 Float.lit_0_5 "Resolved" ]} ∅ [] in
  ∃ msg st',
    resolve_feedback 7 st = (Json 200 {["message" := JStr msg]}, st') ∧
    emitted st' = [Emit "feedback_resolved" {["id" := JInt 7]}] ∧
    feedbacks st' = feedbacks st.
Proof.
  intros st.
  destruct (resolve_resolved_is_idempotent 7 st (sample_row 7 Float.lit_0_5 "Resolved")
              eq_refl) as (msg & st' & Hr & He & _ & Hs).
  exists msg, st'. split; [exact Hr|]. split; [exact He|].
  exact (proj1 (Hs eq_refl)).
Defined.

(** ** Dates *)


Lemma strptime_ymd_valid (s : string) (d : date) :
  strptime_ymd s = Ok d → valid_date d = true.
Proof.
  unfold strptime_ymd. intros E.
  repeat match type of E with
         | match ?x with _ => _ end = _ => destruct x eqn:?
         | (if ?x then _ else _) = _ => destruct x eqn:?
         end; congruence.
Qed.

Lemma valid_date_bounds (d : date) :
  valid_date d = true →
  1 ≤ year d ≤ 9999 ∧ 1 ≤ month d ≤ 12 ∧
  1 ≤ day d ≤ days_in_month (year d) (month d).
Proof. unfold valid_date, MINYEAR, MAXYEAR. destruct d as [y m dd]; simpl. lia. Qed.

Lemma days_in_month_bounds (y m : Z) : 28 ≤ days_in_month y m ≤ 31.
Proof.
  unfold days_in_month.
  repeat match goal with |- context [if ?b then _ else _] => destruct b end; lia.
Qed.

(** The next day exists for every date but the last. *)
Lemma date_add_day_Ok (d : date) :
  valid_date d = true → d ≠ date_max → ∃ d', date_add_day d = Ok d'.
Proof.
  intros Hv Hd. apply valid_date_bounds in Hv as (Hy & Hm & Hdd).
  unfold date_add_day, MAXYEAR.
  destruct (day d <? _) eqn:E1; [by eexists|].
  destruct (month d <? 12) eqn:E2; [by eexists|].
  destruct (year d <? 9999) eqn:E3; [by eexists|].
  exfalso. apply Hd. destruct d as [y m dd]; simpl in *.
  assert (m = 12) as -> by lia. assert (y = 9999) as -> by lia.
  change (days_in_month 9999 12) with 31 in *.
  assert (dd = 31) as -> by lia. reflexivity.
Qed.


Lemma date_ltb_spec (a b : date) :
  date_ltb a b = true ↔
  year a < year b ∨
  (year a = year b ∧ (month a < month b ∨ (month a = month b ∧ day a < day b))).
Proof.
  unfold date_ltb, date_compare.
  destruct (Z.compare_spec (year a) (year b));
    destruct (Z.compare_spec (month a) (month b));
    destruct (Z.compare_spec (day a) (day b));
    split; (congruence || lia).
Qed.

Lemma date_leb_spec (a b : date) :
  date_leb a b = true ↔
  year a < year b ∨
  (year a = year b ∧ (month a < month b ∨ (month a = month b ∧ day a ≤ day b))).
Proof.
  unfold date_leb, date_compare.
  destruct (Z.compare_spec (year a) (year b));
    destruct (Z.compare_spec (month a) (month b));
    destruct (Z.compare_spec (day a) (day b));
    split; (congruence || lia).
Qed.

(** A day comes before the morrow of [d] exactly when it is [d] or
    earlier. *)
Lemma before_next_day (x d d' : date) :
  valid_date x = true → valid_date d = true → date_add_day d = Ok d' →
  date_ltb x d' = true ↔ date_leb x d = true.
Proof.
  intros Hx Hd E.
  apply valid_date_bounds in Hx as (Hxy & Hxm & Hxd).
  apply valid_date_bounds in Hd as (Hy & Hm & Hdd).
  rewrite date_ltb_spec, date_leb_spec.
  unfold date_add_day, MAXYEAR in E.
  destruct x as [xy xm xd], d as [y m dd]; simpl in *.
  pose proof (days_in_month_bounds y m).
  destruct (Z.ltb_spec dd (days_in_month y m)).
  { injection E as <-. simpl. lia. }
  destruct (Z.ltb_spec m 12).
  { injection E as <-. simpl.
    destruct (decide (xy = y)) as [->|]; [|lia].
    destruct (decide (xm = m)) as [->|]; lia. }
  destruct (Z.ltb_spec y 9999); [|discriminate].
  injection E as <-. simpl.
  destruct (decide (xy = y)) as [->|]; [|lia].
  destruct (decide (xm = m)) as [->|]; lia.
Qed.

(** A timestamp against the midnight of a day. *)
Lemma datetime_ge_midnight (t : datetime) (d : date) :
  valid_datetime t = true →
  datetime_leb (midnight d) t = true ↔ date_leb d (dt_date t) = true.
Proof.
  unfold valid_datetime, datetime_leb, datetime_compare, date_leb, midnight. simpl.
  intros [[_ Hv%Z.leb_le]%andb_true_iff _]%andb_true_iff.
  destruct (date_compare d (dt_date t)); [|done..].
  destruct (dt_micros t); simpl; split; (congruence || lia).
Qed.

Lemma datetime_lt_midnight (t : datetime) (d : date) :
  valid_datetime t = true →
  datetime_ltb t (midnight d) = true ↔ date_ltb (dt_date t) d = true.
Proof.
  unfold valid_datetime, datetime_ltb, datetime_compare, date_ltb, midnight. simpl.
  intros [[_ Hv%Z.leb_le]%andb_true_iff _]%andb_true_iff.
  destruct (date_compare (dt_date t) d); [|done..].
  destruct (dt_micros t); simpl; split; (congruence || lia).
Qed.

(** ** The filter builder *)

Lemma given_Some (s : string) : s ≠ EmptyString → given (Some s) = Some s.
Proof. intros Hs. unfold given, str_truthy. by rewrite bool_decide_eq_false_2. Qed.

Lemma given_empty : given (Some EmptyString) = None.
Proof. reflexivity. Qed.

Lemma given_inv (o : option string) (s : string) :
  given o = Some s → o = Some s ∧ s ≠ EmptyString.
Proof.
  unfold given, str_truthy. destruct o as [x|]; [|done].
  case_bool_decide; simpl; [done|]. by intros [= ->].
Qed.


(** The three read endpoints answer alike on requests that build the
    same query. *)
Lemma read_endpoints_same (a b : Args.t) (st : state) :
  build_filtered_query a = build_filtered_query b →
  get_feedback a st = get_feedback b st ∧
  get_metrics a st = get_metrics b st ∧
  get_metrics_trend a st = get_metrics_trend b st.
Proof. unfold get_feedback, get_metrics, get_metrics_trend. by intros ->. Qed.


Lemma read_endpoints_unhandled (a : Args.t) (st : state) (e : exn) :
  build_filtered_query a = Raise e →
  get_feedback a st = Unhandled e ∧
  get_metrics a st = Unhandled e ∧
  get_metrics_trend a st = Unhandled e.
Proof. unfold get_feedback, get_metrics, get_metrics_trend. by intros ->. Qed.

(** A metrics answer is [metrics_of] applied to the rows of the query
    built from the request, a trend answer is [trend_of] applied to
    them. *)
Lemma get_metrics_Json (a : Args.t) (st : state) (code : Z) (m : metrics) :
  get_metrics a st = Json code m →
  ∃ q rows, build_filtered_query a = Ok (Some q) ∧ run_query st q = Ok rows ∧
            code = 200 ∧ m = metrics_of rows.
Proof.
  unfold get_metrics. intros E.
  destruct (build_filtered_query a) as [[q|]|]; try discriminate E.
  destruct (run_query st q) as [rows|] eqn:Er; try discriminate E.
  injection E as <- <-. by exists q, rows.
Qed.

Lemma get_metrics_trend_Json (a : Args.t) (st : state) (code : Z)
    (body : list (gmap string json)) :
  get_metrics_trend a st = Json code body →
  ∃ q rows, build_filtered_query a = Ok (Some q) ∧ run_query st q = Ok rows ∧
            code = 200 ∧ body = trend_of rows.
Proof.
  unfold get_metrics_trend. intros E.
  destruct (build_filtered_query a) as [[q|]|]; try discriminate E.
  destruct (run_query st q) as [rows|] eqn:Er; try discriminate E.
  injection E as <- <-. by exists q, rows.
Qed.

(** The rows of a query are rows of the table that pass its criteria. *)
Lemma run_query_rows (st : state) (q : Query) (rows : list Feedback.t) (f : Feedback.t) :
  run_query st q = Ok rows → f ∈ rows →
  passes st q f = true ∧ ∃ i, feedbacks st !! i = Some f.
Proof.
  unfold run_query. intros E Hf. apply bind_Ok in E as (q' & _ & E).
  injection E as <-.
  apply list_elem_of_filter in Hf as [Hp Hf]. split; [done|].
  apply list_elem_of_fmap in Hf as ([i g] & -> & Hg).
  exists i. by apply elem_of_map_to_list.
Qed.

Lemma passes_nil (st : state) (f : Feedback.t) : passes st [] f = true.
Proof. reflexivity. Qed.

Lemma run_query_nil (st : state) :
  run_query st [] = Ok (snd <$> map_to_list (feedbacks st)).
Proof.
  unfold run_query. simpl. f_equal.
  induction (snd <$> map_to_list (feedbacks st)) as [|f l IH]; [done|].
  rewrite filter_cons_True by done. by rewrite IH.
Qed.

(** C10. A filter parameter supplied as the empty string builds the same
    query, and so gives the same answer on the three read endpoints, as
    the request without that parameter; with all five parameters empty
    the query has no criterion and the listing returns every item. *)
Theorem empty_parameter_is_absent (s e i ar stt : option string) (st : state) :
  let same a b :=
    build_filtered_query a = build_filtered_query b ∧
    get_feedback a st = get_feedback b st ∧
    get_metrics a st = get_metrics b st ∧
    get_metrics_trend a st = get_metrics_trend b st in
  let empty := Some EmptyString in
  same (Args.Build empty e i ar stt) (Args.Build None e i ar stt) ∧
  same (Args.Build s empty i ar stt) (Args.Build s None i ar stt) ∧
  same (Args.Build s e empty ar stt) (Args.Build s e None ar stt) ∧
  same (Args.Build s e i empty stt) (Args.Build s e i None stt) ∧
  same (Args.Build s e i ar empty) (Args.Build s e i ar None) ∧
  build_filtered_query (Args.Build empty empty empty empty empty) = Ok (Some []) ∧
  get_feedback (Args.Build empty empty empty empty empty) st =
    Json 200 (feedback_dict <$>
                merge_sort by_timestamp_desc (snd <$> map_to_list (feedbacks st))).
Proof.
  intros same empty.
  assert (Hsame : ∀ a b, build_filtered_query a = build_filtered_query b → same a b).
  { intros a b E. split; [exact E|]. by apply read_endpoints_same. }
  repeat (split; [by apply Hsame|]).
  split; [reflexivity|].
  unfold get_feedback.
  change (build_filtered_query (Args.Build empty empty empty empty empty))
    with (Ok (Some ([] : Query))).
  cbv beta iota. by rewrite run_query_nil.
Qed.

(** The statements of the [try] block, one parameter at a time. *)
Lemma build_filtered_query_unfold (a : Args.t) :
  build_filtered_query a =
  match
    (query ← match given (Args.start a) with
             | Some s => d ← strptime_ymd s; Ok ([TimestampGe d] : Query)
             | None => Ok []
             end;
     query ← match given (Args.end_ a) with
             | Some s => d ← strptime_ymd s; b ← date_add_day d;
                         Ok (query ++ [TimestampLt b])
             | None => Ok query
             end;
     query ← match given (Args.store_id a) with
             | Some s => n ← py_int s; Ok (query ++ [StoreIdEq n])
             | None => Ok query
             end;
     Ok (match given (Args.area a) with Some x => [StoreAreaEq x] | None => [] end
         ++ query
         ++ match given (Args.status a) with Some x => [StatusEq x] | None => [] end))
  with
  | Ok query => Ok (Some query)
  | Raise ValueError => Ok None
  | Raise e => Raise e
  end.
Proof.
  unfold build_filtered_query.
  destruct (given (Args.area a)), (given (Args.start a)),
    (given (Args.end_ a)), (given (Args.store_id a)),
    (given (Args.status a)); simpl;
    repeat match goal with
           | |- context [strptime_ymd ?x] => destruct (strptime_ymd x); simpl
           | |- context [date_add_day ?x] => destruct (date_add_day x); simpl
           | |- context [py_int ?x] => destruct (py_int x); simpl
           end;
    rewrite <- ?app_assoc; reflexivity.
Qed.




Lemma strptime_ymd_nonempty (s : string) (d : date) :
  strptime_ymd s = Ok d → s ≠ EmptyString.
Proof. by intros E ->. Qed.

(** The window of dates. With [start] and [end] two dates, [end] not the
    last of the calendar, the query keeps the items stamped from
    [start] at 00:00:00 up to, and not including, the morrow of [end] at
    00:00:00: those whose day lies between [start] and [end], both
    included. *)
Lemma date_window (s e : string) (ds de : date) (st : state) :
  strptime_ymd s = Ok ds → strptime_ymd e = Ok de → de ≠ date_max →
  ∃ de',
    date_add_day de = Ok de' ∧
    build_filtered_query (Args.Build (Some s) (Some e) None None None)
      = Ok (Some [TimestampGe ds; TimestampLt de']) ∧
    run_query st [TimestampGe ds; TimestampLt de']
      = Ok (filter (λ f, passes st [TimestampGe ds; TimestampLt de'] f = true)
              (snd <$> map_to_list (feedbacks st))) ∧
    ∀ f, valid_datetime (Feedback.timestamp f) = true →
      (passes st [TimestampGe ds; TimestampLt de'] f = true ↔
       datetime_leb (midnight ds) (Feedback.timestamp f) = true ∧
       datetime_ltb (Feedback.timestamp f) (midnight de') = true) ∧
      (passes st [TimestampGe ds; TimestampLt de'] f = true ↔
       date_leb ds (dt_date (Feedback.timestamp f)) = true ∧
       date_leb (dt_date (Feedback.timestamp f)) de = true).
Proof.
  intros Es Ee Hmax.
  destruct (date_add_day_Ok de) as [de' Ea]; [by eapply strptime_ymd_valid | done |].
  exists de'. split; [exact Ea|]. split; [|split; [reflexivity|]].
  - rewrite build_filtered_query_unfold. simpl.
    rewrite !given_Some by (by eapply strptime_ymd_nonempty).
    by rewrite Es, Ee; simpl; rewrite Ea.
  - intros f Hf.
    assert (Hp : passes st [TimestampGe ds; TimestampLt de'] f = true ↔
                 datetime_leb (midnight ds) (Feedback.timestamp f) = true ∧
                 datetime_ltb (Feedback.timestamp f) (midnight de') = true).
    { unfold passes. simpl. rewrite andb_true_r. apply andb_true_iff. }
    split; [exact Hp|]. rewrite Hp.
    rewrite datetime_ge_midnight, datetime_lt_midnight by done.
    rewrite (before_next_day _ de de'); [done| |by eapply strptime_ymd_valid|done].
    by apply andb_true_iff in Hf as [[Hf _]%andb_true_iff _].
Qed.

(** With [start] alone the query keeps the items stamped on that day or
    later. *)
Lemma date_window_start_only (s : string) (ds : date) (st : state) :
  strptime_ymd s = Ok ds →
  build_filtered_query (Args.Build (Some s) None None None None)
    = Ok (Some [TimestampGe ds]) ∧
  run_query st [TimestampGe ds]
    = Ok (filter (λ f, passes st [TimestampGe ds] f = true)
            (snd <$> map_to_list (feedbacks st))) ∧
  ∀ f, valid_datetime (Feedback.timestamp f) = true →
    passes st [TimestampGe ds] f = true ↔
    date_leb ds (dt_date (Feedback.timestamp f)) = true.
Proof.
  intros Es. split; [|split; [reflexivity|]].
  - rewrite build_filtered_query_unfold. simpl.
    rewrite given_Some by (by eapply strptime_ymd_nonempty).
    by rewrite Es.
  - intros f Hf. unfold passes. simpl. rewrite andb_true_r.
    by apply datetime_ge_midnight.
Qed.

(** With [end] alone, not the last day of the calendar, the query keeps
    the items stamped on that day or earlier. *)
Lemma date_window_end_only (e : string) (de : date) (st : state) :
  strptime_ymd e = Ok de → de ≠ date_max →
  ∃ de',
    date_add_day de = Ok de' ∧
    build_filtered_query (Args.Build None (Some e) None None None)
      = Ok (Some [TimestampLt de']) ∧
    run_query st [TimestampLt de']
      = Ok (filter (λ f, passes st [TimestampLt de'] f = true)
              (snd <$> map_to_list (feedbacks st))) ∧
    ∀ f, valid_datetime (Feedback.timestamp f) = true →
      passes st [TimestampLt de'] f = true ↔
      date_leb (dt_date (Feedback.timestamp f)) de = true.
Proof.
  intros Ee Hmax.
  destruct (date_add_day_Ok de) as [de' Ea]; [by eapply strptime_ymd_valid | done |].
  exists de'. split; [exact Ea|]. split; [|split; [reflexivity|]].
  - rewrite build_filtered_query_unfold. simpl.
    rewrite given_Some by (by eapply strptime_ymd_nonempty).
    by rewrite Ee; simpl; rewrite Ea.
  - intros f Hf. unfold passes. simpl. rewrite andb_true_r.
    rewrite datetime_lt_midnight by done.
    apply (before_next_day _ de de'); [|by eapply strptime_ymd_valid|done].
    by apply andb_true_iff in Hf as [[Hf _]%andb_true_iff _].
Qed.

(** C2, where the code departs from it. With [end=9999-12-31], a date
    that [strptime] accepts, adding one day raises [OverflowError], which
    the handler of [ValueError] does not catch: no filter is built and
    the three read endpoints fail with an unhandled exception. *)
Theorem last_day_as_end_overflows (st : state) :
  let a := Args.Build None (Some "9999-12-31") None None None in
  strptime_ymd "9999-12-31" = Ok date_max ∧
  build_filtered_query a = Raise OverflowError ∧
  get_feedback a st = Unhandled OverflowError ∧
  get_metrics a st = Unhandled OverflowError ∧
  get_metrics_trend a st = Unhandled OverflowError.
Proof.
  intros a. split; [reflexivity|].
  assert (E : build_filtered_query a = Raise OverflowError) by reflexivity.
  split; [exact E | by apply read_endpoints_unhandled].
Qed.

(** ** The rows that are persisted *)

Lemma not_null_Ok (v w : json) : not_null v = Ok w → w = v ∧ v ≠ JNull.
Proof. destruct v; simpl; intros [= <-]; done. Qed.

Lemma bound_not_null (v w : json) : sqlite_bind v ≫= not_null = Ok w → w ≠ JNull.
Proof.
  intros E. apply bind_Ok in E as (u & _ & E).
  apply not_null_Ok in E as [-> ?]. done.
Qed.

Lemma add_store_feedbacks (data : json) (st : state) :
  feedbacks (add_store data st).2 = feedbacks st.
Proof.
  unfold add_store.
  repeat match goal with
         | |- context [match ?x with _ => _ end] => destruct x; simpl
         end; reflexivity.
Qed.

(** A row after a resolution is a row from before, its status apart,
    and the status is the old one or Resolved. *)
Lemma resolve_feedback_rows (feedback_id : Z) (st : state) (j : Z) (g : Feedback.t) :
  feedbacks (resolve_feedback feedback_id st).2 !! j = Some g →
  ∃ f, feedbacks st !! j = Some f ∧ same_but_status f g ∧
       (Feedback.status g = Feedback.status f ∨
        Feedback.status g = Some "Resolved").
Proof.
  unfold resolve_feedback, same_but_status.
  destruct (feedbacks st !! feedback_id) as [item|] eqn:Hi; simpl.
  - destruct (decide (feedback_id = j)) as [<-|Hne].
    + rewrite lookup_insert_eq. intros [= <-]. exists item. auto.
    + rewrite lookup_insert_ne by done. intros Hg. exists g.
      rewrite with_status_same. auto.
  - intros Hg. exists g. rewrite with_status_same. auto.
Qed.

Section invariant.
Context {analyzers : Analyzers}.

Lemma add_feedback_complete (data : json) (now : datetime) (st : state) :
  polarity_is_number → all_complete st → all_complete (add_feedback data now st).2.
Proof.
  intros Hnum Hst.
  destruct (add_feedback data now st) as [r st'] eqn:E. simpl.
  destruct r as [code body|code err|e].
  - apply add_feedback_Json in E as (row & an & E & _ & _ & Hf & _).
    apply new_feedback_Ok in E
      as (m & t & r & c & conf & p & p' & sid & _ & _ & _ & _ & _ & _ & Hp & _ & -> & _).
    intros i f. rewrite Hf.
    destruct (decide (next_rowid (feedbacks st) = i)) as [<-|Hne].
    + rewrite lookup_insert_eq. intros [= <-]. unfold complete. simpl.
      split; [by eapply bound_not_null|]. split; [done|].
      unfold sqlite_real. rewrite Hnum. eauto.
    + rewrite lookup_insert_ne by done. apply Hst.
  - by rewrite (add_feedback_failed _ _ _ _ _ E).
  - by rewrite (add_feedback_failed _ _ _ _ _ E).
Qed.

Lemma resolve_feedback_complete (feedback_id : Z) (st : state) :
  all_complete st → all_complete (resolve_feedback feedback_id st).2.
Proof.
  intros Hst j g Hg.
  apply resolve_feedback_rows in Hg as (f & Hf & <- & Hs).
  specialize (Hst j f Hf). unfold complete in *. destruct f; simpl in *.
  destruct Hst as (? & ? & ? & ? & ? & ?). repeat (split; [done|]).
  destruct Hs as [->| ->]; eauto.
Qed.

Lemma step_complete (st : state) (r : request) :
  polarity_is_number → all_complete st → all_complete (step st r).
Proof.
  intros Hnum Hst. destruct r; simpl; try done.
  - by apply add_feedback_complete.
  - by apply resolve_feedback_complete.
  - intros i f. rewrite add_store_feedbacks. apply Hst.
Qed.

Lemma foldl_step_complete (rs : list request) (st : state) :
  polarity_is_number → all_complete st → all_complete (foldl step st rs).
Proof.
  intros Hnum. revert st. induction rs as [|r rs IH]; intros st Hst; [done|].
  simpl. apply IH. by apply step_complete.
Qed.

End invariant.

(** C8. Provided the sentiment analyser returns a number, every row of
    the feedback table has a platform, a text, a category, a sentiment,
    a sentiment score and a status after any sequence of requests; and a
    resolution changes nothing in a row but its status, which stays as
    it was or becomes Resolved. *)
Theorem persisted_rows_are_complete {analyzers : Analyzers} (rs : list request) :
  polarity_is_number →
  (∀ i f, feedbacks (run rs) !! i = Some f → complete f) ∧
  (∀ feedback_id j g,
     feedbacks (step (run rs) (PostResolve feedback_id)) !! j = Some g →
     ∃ f, feedbacks (run rs) !! j = Some f ∧ same_but_status f g ∧
          (Feedback.status g = Feedback.status f ∨
           Feedback.status g = Some "Resolved")).
Proof.
  intros Hnum. split.
  - apply foldl_step_complete; [done|]. intros i f. simpl. by rewrite lookup_empty.
  - intros feedback_id j g. apply resolve_feedback_rows.
Qed.

Lemma persisted_rows_are_complete_witness :
  let rs := [PostFeedback sample_payload sample_time; PostResolve 1] in
  ∃ f, feedbacks (run (analyzers := constant_analyzers Float.lit_0_5) rs) !! 1 = Some f ∧
       complete f.
Proof.
  intros rs.
  exists (Feedback.Build 1 (JStr "web") (JStr "Service was terrible and slow")
            sample_time (Some "Quality of food") (Some "Positive")
            (Some Float.lit_0_5) JNull (Some "Resolved")).
  split; [reflexivity|].
  apply (proj1 (persisted_rows_are_complete
                  (analyzers := constant_analyzers Float.lit_0_5) rs
                  (λ _, eq_refl)) 1).
  reflexivity.
Defined.

(** ** The category *)

Lemma py_first_elem {A} (l : list A) (x : A) : py_first l = Ok x → x ∈ l.
Proof. destruct l; intros [= ->]. apply list_elem_of_here. Qed.

(** C9. Provided the classifier ranks the labels it is given and no
    others, the category that a successful ingestion reports, which is
    also the one it stores on the new item, is one of the four candidate
    labels. *)
Theorem category_is_a_candidate {analyzers : Analyzers} data now st code body st' :
  ranks_candidates →
  add_feedback data now st = (Json code body, st') →
  Analysis.category (analysis body) ∈
    ["Quality of food"; "Customer service"; "Speed"; "Ambience"] ∧
  ∃ row, feedbacks st' !! added_id body = Some row ∧
         Feedback.category row = Some (Analysis.category (analysis body)).
Proof.
  intros Hrank E.
  apply add_feedback_Json in E as (row & an & E & -> & -> & Hf & _).
  apply new_feedback_Ok in E
    as (m & t & r & c & conf & p & p' & sid & _ & _ & Hr & Hc & _ & _ & _ & _ & -> & ->).
  simpl. split.
  - apply (Hrank t candidate_labels r Hr). by apply py_first_elem.
  - eexists. split; [rewrite Hf; apply lookup_insert_eq | reflexivity].
Qed.

Lemma category_is_a_candidate_witness :
  ∃ body st',
    add_feedback (analyzers := constant_analyzers Float.lit_0_5)
      sample_payload sample_time initial_state = (Json 201 body, st') ∧
    Analysis.category (analysis body) ∈
      ["Quality of food"; "Customer service"; "Speed"; "Ambience"].
Proof.
  eexists _, _. split; [reflexivity|].
  eapply (category_is_a_candidate (analyzers := constant_analyzers Float.lit_0_5)
            sample_payload sample_time initial_state 201).
  - intros t ls r [= <-] l Hl. exact Hl.
  - reflexivity.
Defined.

(** ** Aggregation *)

Lemma group_by_spec {A K} `{EqDecision K} (key : A → K) (rows : list A) :
  group_by key rows
  = (λ k, (k, filter (λ r, key r = k) rows)) <$> remove_dups (key <$> rows).
Proof. reflexivity. Qed.

Lemma filter_absent {A K} `{EqDecision K} (key : A → K) (k : K) (rows : list A) :
  k ∉ key <$> rows → filter (λ r, key r = k) rows = [].
Proof.
  intros Hk. induction rows as [|r rows IH]; [done|].
  rewrite fmap_cons, not_elem_of_cons in Hk. destruct Hk as [Hne Hk].
  rewrite filter_cons_False by done. by apply IH.
Qed.

(** The loop of [get_metrics] over the sentiment groups: a key of the
    initial dict keeps its value unless a group carries it. *)
Lemma sentiments_loop (cnt : option string → Z) (ks : list (option string))
    (d : gmap string Z) (k : string) :
  foldl (λ sentiments '(s, count),
           match s with
           | Some k => if py_in_dict s sentiments then <[k := count]> sentiments
                       else sentiments
           | None => sentiments
           end) d ((λ s, (s, cnt s)) <$> ks) !! k
  = (λ v, if bool_decide (Some k ∈ ks) then cnt (Some k) else v) <$> d !! k.
Proof.
  revert d. induction ks as [|s ks IH]; intros d.
  - simpl. by destruct (d !! k).
  - rewrite fmap_cons. simpl. rewrite IH. clear IH.
    destruct s as [x|].
    + unfold py_in_dict. destruct (decide (x = k)) as [->|Hne].
      * rewrite (bool_decide_eq_true_2 (Some k ∈ Some k :: ks))
          by apply list_elem_of_here.
        destruct (d !! k) as [v|] eqn:Hd.
        -- rewrite (bool_decide_eq_true_2 (is_Some (Some v))) by eauto.
           rewrite lookup_insert_eq. simpl. by case_bool_decide.
        -- rewrite (bool_decide_eq_false_2 (is_Some None)) by (by intros [? ?]).
           by rewrite Hd.
      * assert (Hk : Some k ∈ Some x :: ks ↔ Some k ∈ ks).
        { rewrite elem_of_cons. split; [intros [[=]|]; done | auto]. }
        rewrite (bool_decide_ext _ _ Hk).
        destruct (bool_decide (is_Some (d !! x)));
          [by rewrite lookup_insert_ne | done].
    + assert (Hk : Some k ∈ None :: ks ↔ Some k ∈ ks).
      { rewrite elem_of_cons. split; [intros [[=]|]; done | auto]. }
      by rewrite (bool_decide_ext _ _ Hk).
Qed.

Lemma sentiments_of_lookup (rows : list Feedback.t) (k : string) :
  sentiments_of rows !! k
  = (λ _ : Z, Z.of_nat (length (with_sentiment k rows)))
      <$> ({[ "Positive" := 0; "Negative" := 0; "Neutral" := 0 ]} : gmap string Z) !! k.
Proof.
  unfold sentiments_of, sentiment_counts. rewrite group_by_spec, <- list_fmap_compose.
  etrans;
    [exact (sentiments_loop
              (λ s, sql_count (filter (λ r, Feedback.sentiment r = s) rows)) _ _ k)|].
  destruct (_ !! k) as [v|] eqn:Hk; [|done]. simpl. f_equal.
  case_bool_decide as Hin; [done|].
  rewrite elem_of_remove_dups in Hin.
  assert (v = 0) as ->.
  { rewrite !lookup_insert, lookup_singleton in Hk.
    repeat case_decide; congruence. }
  unfold with_sentiment. by rewrite filter_absent.
Qed.

(** C5. Whatever the rows of the query, the dict of counts by sentiment
    has the three keys Positive, Negative and Neutral and no other, and
    each maps to the number of rows that carry that sentiment: zero when
    there is none, and zero three times for the empty list. *)
Theorem sentiment_counts_have_three_keys (rows : list Feedback.t) :
  dom (feedback_by_sentiment (metrics_of rows))
    = ({[ "Positive"; "Negative"; "Neutral" ]} : gset string) ∧
  (∀ s, s ∈ ["Positive"; "Negative"; "Neutral"] →
        feedback_by_sentiment (metrics_of rows) !! s
        = Some (Z.of_nat (length (with_sentiment s rows)))) ∧
  feedback_by_sentiment (metrics_of [])
    = {[ "Positive" := 0; "Negative" := 0; "Neutral" := 0 ]}.
Proof.
  simpl. split; [|split].
  - apply set_eq. intros k. rewrite elem_of_dom, sentiments_of_lookup.
    rewrite fmap_is_Some, <- elem_of_dom. set_solver.
  - intros s Hs. rewrite sentiments_of_lookup.
    rewrite !elem_of_cons in Hs.
    destruct Hs as [->|[->|[->|Hs]]]; [done..|by apply elem_of_nil in Hs].
  - reflexivity.
Qed.

(** The loop of [get_metrics] over the category groups: the dict holds
    an entry for each key met, and no other. *)
Lemma categories_loop {K V} `{Countable K} (val : K → V) (ks : list K)
    (d : gmap K V) (k : K) :
  foldl (λ categories c, <[c := val c]> categories) d ks !! k
  = if bool_decide (k ∈ ks) then Some (val k) else d !! k.
Proof.
  revert d. induction ks as [|c ks IH]; intros d; [done|].
  simpl. rewrite IH. clear IH.
  destruct (decide (k = c)) as [->|Hne].
  - rewrite lookup_insert_eq.
    rewrite (bool_decide_eq_true_2 (c ∈ c :: ks)) by apply list_elem_of_here.
    by case_bool_decide.
  - rewrite lookup_insert_ne by done.
    assert (Hk : k ∈ c :: ks ↔ k ∈ ks).
    { rewrite elem_of_cons. split; [by intros [|]| auto]. }
    by rewrite (bool_decide_ext _ _ Hk).
Qed.

Lemma foldl_fmap {A B C} (f : A → B → A) (g : C → B) (a : A) (l : list C) :
  foldl f a (g <$> l) = foldl (λ a c, f a (g c)) a l.
Proof. revert a. induction l as [|c l IH]; intros a; [done|]. simpl. apply IH. Qed.

Lemma categories_of_lookup (rows : list Feedback.t) (c : option string) :
  categories_of rows !! c
  = if bool_decide (c ∈ Feedback.category <$> rows)
    then Some (category_entry rows c) else None.
Proof.
  unfold categories_of, category_metrics.
  rewrite group_by_spec, <- list_fmap_compose, foldl_fmap.
  etrans; [exact (categories_loop (category_entry rows) _ _ c)|].
  rewrite lookup_empty.
  by rewrite (bool_decide_ext _ _ (elem_of_remove_dups _ c)).
Qed.

Lemma omap_Some {A} (xs : list A) : omap (λ x, x) (Some <$> xs) = xs.
Proof. induction xs as [|x xs IH]; [done|]. simpl. f_equal. exact IH. Qed.

(** The average of scores none of which is NULL. *)
Lemma sql_avg_mean (xs : list Float.t) :
  xs ≠ [] →
  sql_avg (Some <$> xs)
  = Some (Float.div (float_sum xs) (Float.of_Z (Z.of_nat (length xs)))).
Proof. intros Hxs. unfold sql_avg. rewrite omap_Some. by destruct xs. Qed.

(** C4. [feedback_by_category] has an entry for each category that
    occurs among the rows of the query and for no other; the entry of a
    category gives the number of its rows and the average of their
    scores, which is their sum divided by their number, computed in
    binary64. Three rows of category Speed with scores 0.5, -0.5 and 0.0
    give the count 3 and the average 0.0. *)
Theorem categories_present_with_count_and_mean (rows : list Feedback.t) :
  (∀ c, c ∈ Feedback.category <$> rows →
        feedback_by_category (metrics_of rows) !! c
        = Some {[ "count" := JInt (Z.of_nat (length (in_category c rows)));
                  "average_sentiment_score" :=
                    json_of_float (avg_score (in_category c rows)) ]}) ∧
  (∀ c, c ∉ Feedback.category <$> rows →
        feedback_by_category (metrics_of rows) !! c = None) ∧
  (∀ c xs, Feedback.sentiment_score <$> in_category c rows = Some <$> xs →
           xs ≠ [] →
           avg_score (in_category c rows)
           = Some (Float.div (float_sum xs) (Float.of_Z (Z.of_nat (length xs))))) ∧
  feedback_by_category
    (metrics_of [sample_row 1 Float.lit_0_5 "New";
                 sample_row 2 (Float.opp Float.lit_0_5) "New";
                 sample_row 3 Float.zero "New"])
  = {[ Some "Speed" := {[ "count" := JInt 3;
                          "average_sentiment_score" := JFloat Float.zero ]} ]}.
Proof.
  simpl. split; [|split; [|split]].
  - intros c Hc. rewrite categories_of_lookup. by rewrite bool_decide_eq_true_2.
  - intros c Hc. rewrite categories_of_lookup. by rewrite bool_decide_eq_false_2.
  - intros c xs Hxs Hne. unfold avg_score. rewrite Hxs. by apply sql_avg_mean.
  - reflexivity.
Qed.

(** ** The order of strings and the rendering of dates *)

Lemma ascii_compare_N (a b : ascii) :
  Ascii.compare a b = (N_of_ascii a ?= N_of_ascii b)%N.
Proof. reflexivity. Qed.

Lemma ascii_compare_Eq (a b : ascii) : Ascii.compare a b = Eq → a = b.
Proof. apply Ascii.compare_eq_iff. Qed.

Lemma ascii_compare_Lt_trans (a b c : ascii) :
  Ascii.compare a b = Lt → Ascii.compare b c = Lt → Ascii.compare a c = Lt.
Proof. rewrite !ascii_compare_N, !N.compare_lt_iff. lia. Qed.

Lemma string_compare_Eq (s t : string) : String.compare s t = Eq ↔ s = t.
Proof.
  split; [apply String.compare_eq_iff|]. intros ->.
  induction t as [|c t IH]; [done|]. simpl.
  by rewrite ascii_compare_N, N.compare_refl.
Qed.

Lemma string_compare_Lt_trans (s t u : string) :
  String.compare s t = Lt → String.compare t u = Lt → String.compare s u = Lt.
Proof.
  revert t u. induction s as [|a s IH]; intros [|b t] [|c u]; simpl; try done.
  destruct (Ascii.compare a b) eqn:Hab; try done;
    destruct (Ascii.compare b c) eqn:Hbc; try done.
  - apply ascii_compare_Eq in Hab as ->. rewrite Hbc. apply IH.
  - apply ascii_compare_Eq in Hab as ->. by rewrite Hbc.
  - apply ascii_compare_Eq in Hbc as <-. by rewrite Hab.
  - by rewrite (ascii_compare_Lt_trans _ _ _ Hab Hbc).
Qed.

Lemma string_le_spec (s t : string) :
  string_le s t ↔ String.compare s t = Lt ∨ s = t.
Proof.
  unfold string_le, String.leb. rewrite <- string_compare_Eq.
  destruct (String.compare s t); split; (congruence || auto || (by intros [|])).
Qed.

#[local] Instance string_le_trans : Transitive string_le.
Proof.
  intros s t u. rewrite !string_le_spec.
  intros [Hst| ->] [Htu| ->]; eauto using string_compare_Lt_trans.
Qed.

#[local] Instance string_le_antisym : AntiSymm (=) string_le.
Proof. intros s t. apply String.leb_antisym. Qed.

#[local] Instance string_le_total : Total string_le.
Proof. intros s t. apply String.leb_total. Qed.

#[local] Instance by_date_trans : Transitive by_date.
Proof. intros a b c. apply string_le_trans. Qed.

#[local] Instance by_date_total : Total by_date.
Proof. intros a b. apply string_le_total. Qed.

(** Digits compare as the numbers they print. *)
Lemma digit_char_compare (a b : Z) :
  Ascii.compare (digit_char a) (digit_char b) = (a mod 10 ?= b mod 10).
Proof.
  unfold digit_char. rewrite ascii_compare_N.
  pose proof (Z.mod_pos_bound a 10 eq_refl).
  pose proof (Z.mod_pos_bound b 10 eq_refl).
  rewrite !N_ascii_embedding by (apply N2Z.inj_lt; rewrite Z2N.id; lia).
  rewrite Z2N.inj_compare by lia. apply Z.add_compare_mono_l.
Qed.

Lemma two_digits (a b : Z) (k : comparison) :
  0 ≤ a < 100 → 0 ≤ b < 100 →
  match (a / 10) mod 10 ?= (b / 10) mod 10 with
  | Eq => match a mod 10 ?= b mod 10 with Eq => k | o => o end
  | o => o
  end
  = match a ?= b with Eq => k | o => o end.
Proof.
  intros Ha Hb.
  destruct (Z.compare_spec ((a / 10) mod 10) ((b / 10) mod 10));
    destruct (Z.compare_spec (a mod 10) (b mod 10));
    destruct (Z.compare_spec a b); try reflexivity; exfalso;
    Z.div_mod_to_equations; lia.
Qed.

Lemma four_digits (a b : Z) (k : comparison) :
  0 ≤ a < 10000 → 0 ≤ b < 10000 →
  match (a / 100 / 10) mod 10 ?= (b / 100 / 10) mod 10 with
  | Eq =>
      match (a / 100) mod 10 ?= (b / 100) mod 10 with
      | Eq =>
          match (a / 10) mod 10 ?= (b / 10) mod 10 with
          | Eq => match a mod 10 ?= b mod 10 with Eq => k | o => o end
          | o => o
          end
      | o => o
      end
  | o => o
  end
  = match a ?= b with Eq => k | o => o end.
Proof.
  intros Ha Hb.
  rewrite (two_digits (a / 100) (b / 100)) by (Z.div_mod_to_equations; lia).
  replace ((a / 10) mod 10) with ((a mod 100 / 10) mod 10)
    by (Z.div_mod_to_equations; lia).
  replace ((b / 10) mod 10) with ((b mod 100 / 10) mod 10)
    by (Z.div_mod_to_equations; lia).
  replace (a mod 10) with ((a mod 100) mod 10) by (Z.div_mod_to_equations; lia).
  replace (b mod 10) with ((b mod 100) mod 10) by (Z.div_mod_to_equations; lia).
  rewrite (two_digits (a mod 100) (b mod 100)) by (Z.div_mod_to_equations; lia).
  destruct (Z.compare_spec (a / 100) (b / 100));
    destruct (Z.compare_spec (a mod 100) (b mod 100));
    destruct (Z.compare_spec a b); try reflexivity; exfalso;
    Z.div_mod_to_equations; lia.
Qed.

(** The rendering of a date orders as the date does. *)
Lemma isoformat_date_compare (a b : date) :
  valid_date a = true → valid_date b = true →
  String.compare (isoformat_date a) (isoformat_date b) = date_compare a b.
Proof.
  intros (Hya & Hma & Hda)%valid_date_bounds (Hyb & Hmb & Hdb)%valid_date_bounds.
  pose proof (days_in_month_bounds (year a) (month a)).
  pose proof (days_in_month_bounds (year b) (month b)).
  unfold isoformat_date, pad4, pad2, date_compare.
  generalize digit_char_compare. generalize digit_char. intros dig Hdig.
  simpl. rewrite !Hdig.
  rewrite four_digits by lia.
  rewrite !two_digits by lia.
  by destruct (day a ?= day b).
Qed.


Lemma date_compare_Eq (a b : date) : date_compare a b = Eq → a = b.
Proof.
  unfold date_compare. destruct a as [y m d], b as [y' m' d']; simpl.
  destruct (Z.compare_spec y y'); try done.
  destruct (Z.compare_spec m m'); try done.
  destruct (Z.compare_spec d d'); try done. by subst.
Qed.

Lemma isoformat_date_inj (a b : date) :
  valid_date a = true → valid_date b = true →
  isoformat_date a = isoformat_date b → a = b.
Proof.
  intros Ha Hb E. apply date_compare_Eq.
  rewrite <- isoformat_date_compare by done. by apply string_compare_Eq.
Qed.

Lemma isoformat_date_le (a b : date) :
  valid_date a = true → valid_date b = true →
  date_le a b → string_le (isoformat_date a) (isoformat_date b).
Proof.
  intros Ha Hb. unfold date_le, string_le, date_leb, String.leb.
  by rewrite isoformat_date_compare.
Qed.

#[local] Instance date_le_trans : Transitive date_le.
Proof.
  intros a b c. unfold date_le. rewrite !date_leb_spec. lia.
Qed.

#[local] Instance date_le_total : Total date_le.
Proof.
  intros a b. unfold date_le. rewrite !date_leb_spec. lia.
Qed.

Lemma date_le_lt (a b : date) : date_le a b → a ≠ b → date_lt a b.
Proof.
  unfold date_le, date_lt. rewrite date_leb_spec, date_ltb_spec.
  intros Hle Hne.
  destruct (decide (day a = day b)) as [Hd|]; [|lia].
  destruct Hle as [|[Hy [|[Hm _]]]]; [lia..|].
  destruct Hne. destruct a, b; simpl in *; congruence.
Qed.

(** ** Sorted lists *)

Lemma StronglySorted_fmap_on {A B} (P : A → Prop) (R1 : relation A)
    (R2 : relation B) (f : A → B) (l : list A) :
  (∀ x y, P x → P y → R1 x y → R2 (f x) (f y)) →
  Forall P l → StronglySorted R1 l → StronglySorted R2 (f <$> l).
Proof.
  intros Hf HP Hl. induction Hl as [|x l Hl IH Hx]; csimpl; [constructor|].
  apply Forall_cons in HP as [Px HP].
  constructor; [by apply IH|].
  rewrite Forall_fmap. rewrite Forall_forall in Hx, HP.
  apply Forall_forall. intros y Hy. simpl. apply Hf; auto.
Qed.

Lemma StronglySorted_strict {A} (R S : relation A) (l : list A) :
  (∀ x y, R x y → x ≠ y → S x y) →
  NoDup l → StronglySorted R l → StronglySorted S l.
Proof.
  intros HRS Hnd Hl. induction Hl as [|x l Hl IH Hx]; [constructor|].
  apply NoDup_cons in Hnd as [Hx' Hnd].
  constructor; [by apply IH|].
  rewrite Forall_forall in Hx. apply Forall_forall. intros y Hy.
  apply HRS; [by apply Hx|]. by intros ->.
Qed.

(** A list of pairs whose second component is a function of the first
    is the image of its first components. *)
Lemma fmap_fst_determined {A B} (h : A → B) (l : list (A * B)) :
  Forall (λ x, x.2 = h x.1) l → l = (λ k, (k, h k)) <$> (fst <$> l).
Proof.
  induction 1 as [|[k v] l Hx Hl IH]; [done|].
  simpl in Hx. subst v. rewrite !fmap_cons. simpl. by rewrite <- IH.
Qed.

Lemma filter_ext_on {A} (P Q : A → Prop) `{∀ x, Decision (P x)}
    `{∀ x, Decision (Q x)} (l : list A) :
  Forall (λ x, P x ↔ Q x) l → filter P l = filter Q l.
Proof.
  induction 1 as [|x l Hx Hl IH]; [done|].
  destruct (decide (P x)) as [Px|Px].
  - rewrite (filter_cons_True P), (filter_cons_True Q) by tauto. by rewrite IH.
  - rewrite (filter_cons_False P), (filter_cons_False Q) by tauto. done.
Qed.

(** Removing duplicates commutes, up to the order, with a function that
    is injective on the elements of the list. *)
Lemma remove_dups_fmap_on {A B} `{EqDecision A} `{EqDecision B}
    (f : A → B) (l : list A) :
  (∀ x y, x ∈ l → y ∈ l → f x = f y → x = y) →
  remove_dups (f <$> l) ≡ₚ f <$> remove_dups l.
Proof.
  intros Hinj. apply NoDup_Permutation.
  - apply NoDup_remove_dups.
  - apply NoDup_fmap_2_strong; [|apply NoDup_remove_dups].
    intros x y Hx Hy. rewrite elem_of_remove_dups in Hx, Hy. by apply Hinj.
  - intros y. rewrite elem_of_remove_dups, !list_elem_of_fmap.
    by setoid_rewrite elem_of_remove_dups.
Qed.

(** ** The trend *)

Section trend.
Variable rows : list Feedback.t.
Hypothesis rows_valid :
  Forall (λ f, valid_datetime (Feedback.timestamp f) = true) rows.

Let dates : list date := dt_date ∘ Feedback.timestamp <$> rows.
Let days : list date := merge_sort date_le (remove_dups dates).

Lemma dates_valid : Forall (λ d, valid_date d = true) dates.
Proof.
  unfold dates. rewrite Forall_fmap. eapply Forall_impl; [exact rows_valid|].
  intros f Hf. simpl. by apply andb_true_iff in Hf as [[Hf _]%andb_true_iff _].
Qed.

Lemma days_elem (d : date) : d ∈ days ↔ d ∈ dates.
Proof. unfold days. by rewrite merge_sort_Permutation, elem_of_remove_dups. Qed.

Lemma days_valid : Forall (λ d, valid_date d = true) days.
Proof.
  apply Forall_forall. intros d Hd%days_elem.
  pose proof dates_valid as Hv. rewrite Forall_forall in Hv. by apply Hv.
Qed.

Lemma days_sorted : StronglySorted date_lt days.
Proof.
  apply (StronglySorted_strict date_le).
  - apply date_le_lt.
  - unfold days. rewrite merge_sort_Permutation. apply NoDup_remove_dups.
  - apply StronglySorted_merge_sort; apply _.
Qed.

Lemma days_rendered :
  fst <$> daily_trend rows = isoformat_date <$> days.
Proof.
  apply (StronglySorted_unique string_le).
  - apply Sorted_StronglySorted; [apply _|].
    apply (Sorted_fmap fst by_date string_le); [done|].
    apply Sorted_merge_sort. apply _.
  - apply (StronglySorted_fmap_on (λ d, valid_date d = true) date_le).
    + intros x y Hx Hy. by apply isoformat_date_le.
    + apply days_valid.
    + apply StronglySorted_merge_sort; apply _.
  - unfold daily_trend, days. rewrite !merge_sort_Permutation.
    rewrite group_by_spec, <- !list_fmap_compose.
    rewrite (list_fmap_ext _ id) by done. rewrite list_fmap_id.
    unfold strftime_ymd.
    change (remove_dups (isoformat_date ∘ (dt_date ∘ Feedback.timestamp) <$> rows)
            ≡ₚ isoformat_date <$> remove_dups dates).
    rewrite list_fmap_compose. apply remove_dups_fmap_on.
    pose proof dates_valid as Hv. rewrite Forall_forall in Hv.
    intros x y Hx Hy. apply isoformat_date_inj; by apply Hv.
Qed.

Lemma daily_trend_determined :
  daily_trend rows
  = (λ k, (k, avg_score (filter (λ r, strftime_ymd (Feedback.timestamp r) = k) rows)))
      <$> (fst <$> daily_trend rows).
Proof.
  apply fmap_fst_determined. unfold daily_trend.
  rewrite merge_sort_Permutation, group_by_spec, <- list_fmap_compose.
  rewrite Forall_fmap. by apply Forall_true.
Qed.

Lemma trend_of_days : trend_of rows = trend_entry rows <$> days.
Proof.
  unfold trend_of. rewrite daily_trend_determined, days_rendered.
  rewrite <- !list_fmap_compose. apply Forall_fmap_ext.
  pose proof days_valid as Hv. eapply Forall_impl; [exact Hv|].
  intros d Hd. unfold trend_entry, trend_dict, on_day. simpl.
  do 4 f_equal. apply filter_ext_on.
  eapply Forall_impl; [exact rows_valid|]. intros f Hf. simpl.
  unfold strftime_ymd. split; [|by intros ->].
  apply isoformat_date_inj; [|done].
  by apply andb_true_iff in Hf as [[Hf _]%andb_true_iff _].
Qed.

End trend.

(** C6, as the code has it. For rows with well-formed timestamps the
    trend has one entry per calendar day on which a row falls and none
    for the other days; the entries come in the strictly ascending order
    of their days; the entry of a day has the two keys [date], the day
    as [YYYY-MM-DD], and [average_sentiment], the average of the scores
    of the rows of that day. *)
Theorem trend_one_entry_per_day (rows : list Feedback.t) :
  Forall (λ f, valid_datetime (Feedback.timestamp f) = true) rows →
  ∃ days : list date,
    StronglySorted date_lt days ∧
    (∀ d, d ∈ days ↔ ∃ f, f ∈ rows ∧ dt_date (Feedback.timestamp f) = d) ∧
    trend_of rows
    = (λ d, {[ "date" := JStr (isoformat_date d);
               "average_sentiment" := json_of_float (avg_score (on_day d rows)) ]})
        <$> days.
Proof.
  intros Hv.
  exists (merge_sort date_le (remove_dups (dt_date ∘ Feedback.timestamp <$> rows))).
  split; [by apply days_sorted|]. split; [|by apply trend_of_days].
  intros d. rewrite days_elem, list_elem_of_fmap.
  split; [intros (f & -> & Hf) | intros (f & Hf & <-)]; eauto.
Qed.

Lemma trend_one_entry_per_day_witness :
  ∃ days : list date,
    StronglySorted date_lt days ∧
    trend_of [sample_row 1 Float.lit_0_5 "New"; sample_row 2 Float.zero "New"]
    = (λ d, {[ "date" := JStr (isoformat_date d);
               "average_sentiment" :=
                 json_of_float
                   (avg_score
                      (on_day d [sample_row 1 Float.lit_0_5 "New";
                                 sample_row 2 Float.zero "New"])) ]})
        <$> days.
Proof.
  destruct (trend_one_entry_per_day
              [sample_row 1 Float.lit_0_5 "New"; sample_row 2 Float.zero "New"])
    as (days & Hs & _ & Ht).
  - repeat constructor.
  - by exists days.
Defined.

(** The entry of a day carries the average under the key
    [average_sentiment]; it has no key [average_sentiment_score]. *)
Lemma trend_entry_has_no_score_key :
  let st := State {[ 1 := sample_row 1 Float.lit_0_5 "New" ]} ∅ [] in
  ∃ e, get_metrics_trend no_args st = Json 200 [e] ∧
       e !! "date" = Some (JStr "2024-01-01") ∧
       e !! "average_sentiment" = Some (JFloat Float.lit_0_5) ∧
       e !! "average_sentiment_score" = None.
Proof. eexists. repeat split. Qed.

(** * Further properties *)

(** ** Ingestion: what it accepts and what it leaves behind *)

Lemma py_truthy_object (m : gmap string json) (k : string) :
  is_Some (m !! k) → py_truthy (JObj m) = true.
Proof.
  intros [v Hv]. simpl.
  destruct (map_to_list m) as [|x l] eqn:E; [|done].
  apply map_to_list_empty_iff in E. subst m. by rewrite lookup_empty in Hv.
Qed.

(** An object that has both keys passes the first test of
    [add_feedback]; one that lacks either does not. *)
Lemma missing_required_object (m : gmap string json) :
  missing_required (JObj m)
  = Ok (bool_decide (m !! "text" = None ∨ m !! "platform" = None)).
Proof.
  unfold missing_required.
  destruct (m !! "text") as [v|] eqn:Ht.
  - rewrite (py_truthy_object m "text") by (by rewrite Ht). simpl.
    rewrite Ht. rewrite (bool_decide_eq_true_2 (is_Some (Some v))) by eauto. simpl.
    destruct (m !! "platform") as [p|] eqn:Hp.
    + rewrite (bool_decide_eq_true_2 (is_Some (Some p))) by eauto.
      rewrite bool_decide_eq_false_2; [done|]. by intros [|].
    + rewrite (bool_decide_eq_false_2 (is_Some None)) by (by intros [? ?]).
      rewrite bool_decide_eq_true_2; [done|]. by right.
  - rewrite (bool_decide_eq_true_2 (None = None ∨ _)) by (by left).
    destruct (py_truthy (JObj m)); simpl; [|done].
    rewrite Ht. by rewrite (bool_decide_eq_false_2 (is_Some None)) by (by intros [? ?]).
Qed.

(** X1. An ingestion does all of its work or none of it. Either it
    answers 201, stores one row under an id that was free, keeps the
    stores, and emits one [new_feedback] event naming that id; or it
    answers 400, or fails with an exception, and the tables and the
    events are as they were. *)
Theorem ingestion_is_all_or_nothing {analyzers : Analyzers} (data : json) (now : datetime) (st : state) :
  (∃ body row,
     add_feedback data now st
     = (Json 201 body,
        State (<[added_id body := row]> (feedbacks st)) (stores st)
              (emitted st ++
               [Emit "new_feedback"
                  {["message" :=
                      JStr ("New feedback " +:+ pretty (added_id body) +:+ " added")]}]))
     ∧ feedbacks st !! added_id body = None
     ∧ Feedback.id row = added_id body
     ∧ Feedback.timestamp row = now
     ∧ Feedback.status row = Some "New")
  ∨ add_feedback data now st
    = (JsonError 400 "Missing required data: platform and text", st)
  ∨ (∃ e, add_feedback data now st = (Unhandled e, st)).
Proof.
  unfold add_feedback.
  destruct (missing_required data) as [[]|e]; [by right; left| |by right; right; eexists].
  destruct (new_feedback data now) as [[row an]|e] eqn:E; [|by right; right; eexists].
  left. apply new_feedback_Ok in E
    as (m & t & r & c & conf & p & p' & sid & _ & _ & _ & _ & _ & _ & _ & _ & -> & _).
  exists (Added "Feedback added successfully" (next_rowid (feedbacks st)) an).
  eexists. split; [reflexivity|]. simpl.
  split; [apply next_rowid_fresh|done].
Qed.

(** X2. A JSON object is answered 400 exactly when it lacks the key
    [text] or the key [platform]; the value under the key plays no part
    in that test. *)
Theorem object_rejected_iff_key_missing {analyzers : Analyzers} (m : gmap string json) (now : datetime)
    (st : state) :
  (add_feedback (JObj m) now st).1
  = JsonError 400 "Missing required data: platform and text"
  ↔ m !! "text" = None ∨ m !! "platform" = None.
Proof.
  unfold add_feedback. rewrite missing_required_object.
  case_bool_decide as Hm; simpl; [done|].
  split; [|done].
  by destruct (new_feedback (JObj m) now) as [[row an]|e].
Qed.

(** X3. A [text] that is present but is not a string, [null] included,
    is not answered 400: [TextBlob] raises [TypeError], the request
    fails and nothing is stored or emitted. *)
Theorem non_string_text_fails {analyzers : Analyzers} (m : gmap string json) (v : json) (now : datetime)
    (st : state) :
  m !! "text" = Some v → (∀ t, v ≠ JStr t) → is_Some (m !! "platform") →
  add_feedback (JObj m) now st = (Unhandled TypeError, st).
Proof.
  intros Ht Hv [p Hp]. unfold add_feedback. rewrite missing_required_object.
  rewrite bool_decide_eq_false_2 by (rewrite Ht, Hp; by intros [|]).
  unfold new_feedback. simpl. rewrite Ht. simpl.
  destruct v; try done. by destruct (Hv s).
Qed.

Lemma non_string_text_fails_witness :
  add_feedback (analyzers := constant_analyzers Float.lit_0_5)
    (JObj {[ "platform" := JStr "web"; "text" := JNull ]}) sample_time initial_state
  = (Unhandled TypeError, initial_state).
Proof.
  apply (non_string_text_fails (analyzers := constant_analyzers Float.lit_0_5)
           {[ "platform" := JStr "web"; "text" := JNull ]} JNull).
  - reflexivity.
  - discriminate.
  - by eexists.
Defined.

(** The first test of [add_feedback] passed, for an object with a
    string under [text] and something under [platform]. *)
Lemma add_feedback_enriched {analyzers : Analyzers} (m : gmap string json)
    (t : string) (now : datetime) (st : state) :
  m !! "text" = Some (JStr t) → is_Some (m !! "platform") →
  add_feedback (JObj m) now st
  = match new_feedback (JObj m) now with
    | Raise e => (Unhandled e, st)
    | Ok (row, an) =>
        (Json 201 (Added "Feedback added successfully" (next_rowid (feedbacks st)) an),
         State (<[next_rowid (feedbacks st) := row (next_rowid (feedbacks st))]>
                  (feedbacks st))
               (stores st)
               (emitted st ++
                [Emit "new_feedback"
                   {["message" :=
                       JStr ("New feedback " +:+ pretty (next_rowid (feedbacks st))
                             +:+ " added")]}]))
    end.
Proof.
  intros Ht [p Hp]. unfold add_feedback. rewrite missing_required_object.
  rewrite bool_decide_eq_false_2 by (rewrite Ht, Hp; by intros [|]).
  reflexivity.
Qed.

(** X4. When the classifier fails, or returns an empty ranking, the
    whole ingestion fails with that exception: the sentiment already
    computed is not stored on its own, and nothing is emitted. *)
Theorem classifier_failure_fails_ingestion {analyzers : Analyzers}
    (m : gmap string json) (t : string) (now : datetime) (st : state) :
  m !! "text" = Some (JStr t) → is_Some (m !! "platform") →
  (∀ e, classifier t candidate_labels = Raise e →
        add_feedback (JObj m) now st = (Unhandled e, st)) ∧
  (∀ r, classifier t candidate_labels = Ok r → labels r = [] →
        add_feedback (JObj m) now st = (Unhandled IndexError, st)) ∧
  (∀ r, classifier t candidate_labels = Ok r → scores r = [] →
        add_feedback (JObj m) now st = (Unhandled IndexError, st)).
Proof.
  intros Ht Hp. rewrite (add_feedback_enriched m t) by done.
  unfold new_feedback. simpl. rewrite Ht. simpl.
  split; [|split].
  - by intros e ->.
  - intros r -> Hl. simpl. by rewrite Hl.
  - intros r -> Hs. simpl. destruct (labels r); [done|]. simpl. by rewrite Hs.
Qed.

Lemma classifier_failure_fails_ingestion_witness :
  add_feedback (analyzers := unavailable_classifier Float.lit_0_5 ValueError)
    sample_payload sample_time initial_state
  = (Unhandled ValueError, initial_state).
Proof.
  apply (classifier_failure_fails_ingestion
           (analyzers := unavailable_classifier Float.lit_0_5 ValueError)
           {[ "platform" := JStr "web"; "text" := JStr "Service was terrible and slow" ]}
           "Service was terrible and slow" sample_time initial_state).
  - reflexivity.
  - by eexists.
  - reflexivity.
Defined.



(** X6. The id of a new item is larger than every id in the table, so no
    stored item is overwritten and the ids of two successive ingestions
    increase. *)
Theorem new_ids_increase {analyzers : Analyzers} data now st code body st' :
  add_feedback data now st = (Json code body, st') →
  (∀ j, is_Some (feedbacks st !! j) → j < added_id body) ∧
  (∀ j f, feedbacks st !! j = Some f → feedbacks st' !! j = Some f) ∧
  (∀ data2 now2 code2 body2 st2,
     add_feedback data2 now2 st' = (Json code2 body2, st2) →
     added_id body < added_id body2).
Proof.
  intros E.
  pose proof (add_feedback_keeps data now st) as Hkeep. rewrite E in Hkeep.
  apply add_feedback_Json in E as (row & an & _ & _ & -> & Hf & _). simpl.
  split; [apply next_rowid_above|]. split; [exact Hkeep|].
  intros data2 now2 code2 body2 st2 E2.
  apply add_feedback_Json in E2 as (row2 & an2 & _ & _ & -> & _ & _). simpl.
  apply next_rowid_above. rewrite Hf, lookup_insert_eq. by eexists.
Qed.

Lemma new_ids_increase_witness :
  let analyzers := constant_analyzers Float.lit_0_5 in
  let body := Added "Feedback added successfully" 1
                (Analysis.Build "Quality of food" Float.lit_0_5 "Positive"
                   Float.lit_0_5) in
  let st' := (add_feedback sample_payload sample_time initial_state).2 in
  add_feedback sample_payload sample_time initial_state = (Json 201 body, st') ∧
  (∀ data2 now2 code2 body2 st2,
     add_feedback data2 now2 st' = (Json code2 body2, st2) → 1 < added_id body2).
Proof.
  split; [reflexivity|].
  apply (new_ids_increase (analyzers := constant_analyzers Float.lit_0_5)
           sample_payload sample_time initial_state 201
           (Added "Feedback added successfully" 1
              (Analysis.Build "Quality of food" Float.lit_0_5 "Positive"
                 Float.lit_0_5))
           (add_feedback (analyzers := constant_analyzers Float.lit_0_5)
              sample_payload sample_time initial_state).2
           eq_refl).
Defined.

(** ** The life of a row *)

Lemma with_status_twice (s1 s2 : option string) (f : Feedback.t) :
  Feedback.with_status s2 (Feedback.with_status s1 f) = Feedback.with_status s2 f.
Proof. by destruct f. Qed.

(** A row across one request: it is still there, as it was or with its
    status set to Resolved. *)
Lemma step_keeps_row {analyzers : Analyzers} (st : state) (r : request) (i : Z)
    (f : Feedback.t) :
  feedbacks st !! i = Some f →
  feedbacks (step st r) !! i = Some f ∨
  feedbacks (step st r) !! i = Some (Feedback.with_status (Some "Resolved") f).
Proof.
  intros Hf. destruct r as [data now|feedback_id|data| | |]; simpl; auto.
  - left. by apply add_feedback_keeps.
  - unfold resolve_feedback.
    destruct (feedbacks st !! feedback_id) as [item|] eqn:Hi; simpl; [|auto].
    destruct (decide (feedback_id = i)) as [->|Hne].
    + right. rewrite lookup_insert_eq. congruence.
    + left. by rewrite lookup_insert_ne.
  - left. by rewrite add_store_feedbacks.
Qed.

(** X7. No request deletes an item or changes anything in it but its
    status: after any sequence of requests an item is still stored under
    its id, its status is the old one or Resolved, and an item that was
    Resolved is exactly as it was. *)
Theorem items_persist_and_resolved_is_final {analyzers : Analyzers} (st : state)
    (rs : list request) (i : Z) (f : Feedback.t) :
  feedbacks st !! i = Some f →
  ∃ g, feedbacks (foldl step st rs) !! i = Some g ∧
       same_but_status f g ∧
       (Feedback.status g = Feedback.status f ∨
        Feedback.status g = Some "Resolved") ∧
       (Feedback.status f = Some "Resolved" → g = f).
Proof.
  revert st f. induction rs as [|r rs IH]; intros st f Hf.
  - exists f. simpl. unfold same_but_status. rewrite with_status_same. auto.
  - simpl. destruct (step_keeps_row st r i f Hf) as [Hg|Hg].
    + by apply IH.
    + destruct (IH _ _ Hg) as (g & Hl & Hsame & Hs & Hfin).
      exists g. split; [done|]. unfold same_but_status in *.
      rewrite with_status_twice in Hsame. split; [done|].
      split.
      * right. destruct Hs as [->|]; [by destruct f|done].
      * intros Hr. rewrite Hfin by (by destruct f).
        by rewrite <- Hr, with_status_same.
Qed.

Lemma items_persist_and_resolved_is_final_witness :
  let st := State {[ 7 := sample_row 7 Float.lit_0_5 "Resolved" ]} ∅ [] in
  ∃ g, feedbacks (foldl (step (analyzers := constant_analyzers Float.zero)) st
                    [PostFeedback sample_payload sample_time; PostResolve 7;
                     PostResolve 8])
       !! 7 = Some g ∧ g = sample_row 7 Float.lit_0_5 "Resolved".
Proof.
  intros st.
  destruct (items_persist_and_resolved_is_final
              (analyzers := constant_analyzers Float.zero) st
              [PostFeedback sample_payload sample_time; PostResolve 7; PostResolve 8]
              7 (sample_row 7 Float.lit_0_5 "Resolved") eq_refl)
    as (g & Hg & _ & _ & Hfin).
  exists g. split; [exact Hg | exact (Hfin eq_refl)].
Defined.

(** What holds of the rows of a state still holds after any requests,
    when it holds of the rows an ingestion writes and survives a
    resolution. *)
Lemma rows_invariant {analyzers : Analyzers} (P : Z → Feedback.t → Prop) :
  (∀ i f, P i f → P i (Feedback.with_status (Some "Resolved") f)) →
  (∀ data now row an i, new_feedback data now = Ok (row, an) → P i (row i)) →
  ∀ rs st,
    (∀ i f, feedbacks st !! i = Some f → P i f) →
    ∀ i f, feedbacks (foldl step st rs) !! i = Some f → P i f.
Proof.
  intros Hres Hnew. induction rs as [|r rs IH]; intros st Hst; [done|].
  simpl. apply IH. clear IH. intros i f.
  destruct r as [data now|feedback_id|data| | |]; simpl; auto.
  - destruct (add_feedback data now st) as [rsp st'] eqn:E. simpl.
    destruct rsp as [code body|code err|e].
    + apply add_feedback_Json in E as (row & an & E & _ & _ & -> & _).
      destruct (decide (next_rowid (feedbacks st) = i)) as [<-|Hne].
      * rewrite lookup_insert_eq. intros [= <-]. by eapply Hnew.
      * rewrite lookup_insert_ne by done. apply Hst.
    + rewrite (add_feedback_failed _ _ _ _ _ E) by done. apply Hst.
    + rewrite (add_feedback_failed _ _ _ _ _ E) by done. apply Hst.
  - unfold resolve_feedback.
    destruct (feedbacks st !! feedback_id) as [item|] eqn:Hi; simpl; [|apply Hst].
    destruct (decide (feedback_id = i)) as [->|Hne].
    + rewrite lookup_insert_eq. intros [= <-]. apply Hres. by apply Hst.
    + rewrite lookup_insert_ne by done. apply Hst.
  - rewrite add_store_feedbacks. apply Hst.
Qed.

(** X8. Every item that the service ever holds is stored under its own
    id, has a string for text, a status that is New or Resolved, and a
    sentiment that is the label the threshold rule gives to the polarity
    its score was stored from. *)
Theorem stored_items_are_well_formed {analyzers : Analyzers} (rs : list request)
    (i : Z) (f : Feedback.t) :
  feedbacks (run rs) !! i = Some f →
  Feedback.id f = i ∧
  (∃ t, Feedback.text f = JStr t) ∧
  (Feedback.status f = Some "New" ∨ Feedback.status f = Some "Resolved") ∧
  (∃ p, Feedback.sentiment f = Some (sentiment_label p) ∧
        Feedback.sentiment_score f = sqlite_real p) ∧
  (∃ s, s ∈ ["Positive"; "Negative"; "Neutral"] ∧ Feedback.sentiment f = Some s).
Proof.
  revert i f. unfold run.
  apply (rows_invariant (λ i f,
    Feedback.id f = i ∧ (∃ t, Feedback.text f = JStr t) ∧
    (Feedback.status f = Some "New" ∨ Feedback.status f = Some "Resolved") ∧
    (∃ p, Feedback.sentiment f = Some (sentiment_label p) ∧
          Feedback.sentiment_score f = sqlite_real p) ∧
    (∃ s, s ∈ ["Positive"; "Negative"; "Neutral"] ∧ Feedback.sentiment f = Some s))).
  - intros i f (? & ? & ? & ? & ?). destruct f; simpl in *. auto 10.
  - intros data now row an i E.
    apply new_feedback_Ok in E
      as (m & t & r & c & conf & p & p' & sid & _ & _ & _ & _ & _ & _ & _ & _ & -> & _).
    simpl. split; [done|]. split; [by eexists|]. split; [by left|].
    split; [by eexists|].
    exists (sentiment_label (polarity t)). split; [|done].
    unfold sentiment_label.
    destruct (Float.gt _ _); [set_solver|]. destruct (Float.lt _ _); set_solver.
  - intros i f. simpl. by rewrite lookup_empty.
Qed.

Lemma stored_items_are_well_formed_witness :
  ∃ f, feedbacks (run (analyzers := constant_analyzers Float.lit_0_5)
                    [PostFeedback sample_payload sample_time; PostResolve 1])
       !! 1 = Some f ∧
       Feedback.id f = 1 ∧ Feedback.status f = Some "Resolved".
Proof.
  eexists. split; [reflexivity|].
  pose proof (stored_items_are_well_formed
                (analyzers := constant_analyzers Float.lit_0_5)
                [PostFeedback sample_payload sample_time; PostResolve 1] 1 _ eq_refl)
    as (Hid & _).
  split; [exact Hid | reflexivity].
Defined.

(** ** Resolution and listing *)


Lemma datetime_leb_spec (a b : datetime) :
  datetime_leb a b = true ↔
  date_ltb (dt_date a) (dt_date b) = true ∨
  (dt_date a = dt_date b ∧ dt_micros a ≤ dt_micros b).
Proof.
  unfold datetime_leb, datetime_compare, date_ltb.
  destruct (date_compare (dt_date a) (dt_date b)) eqn:E.
  - apply date_compare_Eq in E. rewrite E.
    destruct (Z.compare_spec (dt_micros a) (dt_micros b)); split;
      (intuition (congruence || lia)).
  - split; auto.
  - split; [done|]. intros [|[Hd _]]; [done|].
    rewrite Hd in E. unfold date_compare in E.
    by rewrite !Z.compare_refl in E.
Qed.

#[local] Instance by_timestamp_desc_trans : Transitive by_timestamp_desc.
Proof.
  intros a b c. unfold by_timestamp_desc.
  rewrite !datetime_leb_spec, !date_ltb_spec.
  intros [H1|[E1 H1]] [H2|[E2 H2]].
  - left. lia.
  - left. rewrite E2. exact H1.
  - left. rewrite <- E1. exact H2.
  - right. split; [congruence | lia].
Qed.

#[local] Instance by_timestamp_desc_total : Total by_timestamp_desc.
Proof.
  intros a b. unfold by_timestamp_desc.
  rewrite !datetime_leb_spec, !date_ltb_spec.
  generalize (Feedback.timestamp a), (Feedback.timestamp b). clear a b.
  intros a b.
  destruct (decide (dt_date b = dt_date a)) as [E|Hne].
  - rewrite E.
    destruct (Z.le_ge_cases (dt_micros a) (dt_micros b)); [right|left]; right;
      (split; [done|lia]).
  - assert (year (dt_date a) ≠ year (dt_date b) ∨
            month (dt_date a) ≠ month (dt_date b) ∨
            day (dt_date a) ≠ day (dt_date b)) as Hd.
    { destruct (dt_date a) as [y m d], (dt_date b) as [y' m' d']; simpl.
      destruct (decide (y = y')) as [->|]; [|auto].
      destruct (decide (m = m')) as [->|]; [|auto].
      destruct (decide (d = d')) as [->|]; [|auto]. by destruct Hne. }
    set (da := dt_date a) in *. set (db := dt_date b) in *.
    assert ((year db < year da ∨
             year db = year da ∧
             (month db < month da ∨ month db = month da ∧ day db < day da)) ∨
            (year da < year db ∨
             year da = year db ∧
             (month da < month db ∨ month da = month db ∧ day da < day db)))
      as [|] by lia; auto.
Qed.

Lemma get_feedback_Json (a : Args.t) (st : state) (code : Z)
    (body : list (gmap string json)) :
  get_feedback a st = Json code body →
  ∃ q rows, build_filtered_query a = Ok (Some q) ∧ run_query st q = Ok rows ∧
            code = 200 ∧
            body = feedback_dict <$> merge_sort by_timestamp_desc rows.
Proof.
  unfold get_feedback. intros E.
  destruct (build_filtered_query a) as [[q|]|]; try discriminate E.
  destruct (run_query st q) as [rows|] eqn:Er; try discriminate E.
  injection E as <- <-. by exists q, rows.
Qed.

Lemma run_query_Ok (st : state) (q : Query) (rows : list Feedback.t) :
  run_query st q = Ok rows →
  rows = filter (λ f, passes st q f = true) (snd <$> map_to_list (feedbacks st)).
Proof.
  unfold run_query. intros E. apply bind_Ok in E as (q' & _ & E). by injection E.
Qed.

(** X10. A listing that succeeds returns the items that pass the
    criteria of the query, each once, the newest first: no item of the
    answer is older than one that follows it. *)
Theorem listing_is_sorted_newest_first (a : Args.t) (st : state) (code : Z)
    (body : list (gmap string json)) :
  get_feedback a st = Json code body →
  ∃ q rows,
    build_filtered_query a = Ok (Some q) ∧
    body = feedback_dict <$> rows ∧
    rows ≡ₚ filter (λ f, passes st q f = true) (snd <$> map_to_list (feedbacks st)) ∧
    StronglySorted
      (λ f g, datetime_leb (Feedback.timestamp g) (Feedback.timestamp f) = true)
      rows.
Proof.
  intros (q & rows & Hq & Hr%run_query_Ok & _ & ->)%get_feedback_Json.
  exists q, (merge_sort by_timestamp_desc rows). split; [done|]. split; [done|].
  split; [by rewrite merge_sort_Permutation, Hr|].
  apply (StronglySorted_merge_sort by_timestamp_desc).
Qed.

Lemma listing_is_sorted_newest_first_witness :
  let st := State {[ 1 := sample_row 1 Float.lit_0_5 "New";
                     2 := sample_row 2 Float.zero "Resolved" ]} ∅ [] in
  ∃ q rows,
    build_filtered_query no_args = Ok (Some q) ∧
    get_feedback no_args st = Json 200 (feedback_dict <$> rows) ∧
    StronglySorted
      (λ f g, datetime_leb (Feedback.timestamp g) (Feedback.timestamp f) = true)
      rows.
Proof.
  intros st.
  destruct (listing_is_sorted_newest_first no_args st 200 _ eq_refl)
    as (q & rows & Hq & Hb & _ & Hs).
  exists q, rows. split; [exact Hq|]. split; [|exact Hs].
  unfold get_feedback at 1. by rewrite <- Hb.
Defined.

(** The dicts of a listing are those of the rows of the table that pass
    the query. *)
Lemma listing_elem (st : state) (q : Query) (rows : list Feedback.t)
    (d : gmap string json) :
  run_query st q = Ok rows →
  d ∈ feedback_dict <$> merge_sort by_timestamp_desc rows ↔
  ∃ i g, feedbacks st !! i = Some g ∧ passes st q g = true ∧ d = feedback_dict g.
Proof.
  intros ->%run_query_Ok. rewrite list_elem_of_fmap.
  setoid_rewrite merge_sort_Permutation. setoid_rewrite list_elem_of_filter.
  setoid_rewrite list_elem_of_fmap. split.
  - intros (g & -> & Hp & [i g'] & -> & Hg%elem_of_map_to_list). by exists i, g'.
  - intros (i & g & Hg & Hp & ->). exists g. split; [done|]. split; [done|].
    exists (i, g). split; [done|]. by apply elem_of_map_to_list.
Qed.

(** X11. An item that was ingested is found by the listing without
    filters: one of the entries carries the id of the answer, the text
    of the payload, the sentiment and the category of the analysis, the
    status New and the time of the ingestion. *)
Theorem ingested_item_is_listed {analyzers : Analyzers} data now st code body st' :
  add_feedback data now st = (Json code body, st') →
  ∃ l d t,
    get_feedback no_args st' = Json 200 l ∧ d ∈ l ∧
    py_getitem data "text" = Ok (JStr t) ∧
    d !! "id" = Some (JInt (added_id body)) ∧
    d !! "text" = Some (JStr t) ∧
    d !! "sentiment" = Some (JStr (Analysis.sentiment (analysis body))) ∧
    d !! "category" = Some (JStr (Analysis.category (analysis body))) ∧
    d !! "status" = Some (JStr "New") ∧
    d !! "timestamp" = Some (JStr (isoformat now)).
Proof.
  intros E.
  apply add_feedback_Json in E as (row & an & E & _ & -> & Hf & _).
  apply new_feedback_Ok in E
    as (m & t & r & c & conf & p & p' & sid & -> & Ht & _ & _ & _ & _ & _ & _ & -> & ->).
  eexists _, (feedback_dict _), t. split.
  { unfold get_feedback.
    change (build_filtered_query no_args) with (Ok (Some ([] : Query))).
    cbv beta iota. rewrite run_query_nil. reflexivity. }
  split.
  { apply (listing_elem st' []); [apply run_query_nil|].
    eexists _, _. split; [rewrite Hf; apply lookup_insert_eq|]. done. }
  split; [simpl; by rewrite Ht|].
  repeat split.
Qed.

Lemma ingested_item_is_listed_witness :
  ∃ l d,
    get_feedback no_args
      (add_feedback (analyzers := constant_analyzers Float.lit_0_5)
         sample_payload sample_time initial_state).2 = Json 200 l ∧
    d ∈ l ∧ d !! "id" = Some (JInt 1) ∧ d !! "status" = Some (JStr "New").
Proof.
  destruct (ingested_item_is_listed (analyzers := constant_analyzers Float.lit_0_5)
              sample_payload sample_time initial_state 201
              (Added "Feedback added successfully" 1
                 (Analysis.Build "Quality of food" Float.lit_0_5 "Positive"
                    Float.lit_0_5))
              (add_feedback (analyzers := constant_analyzers Float.lit_0_5)
                 sample_payload sample_time initial_state).2
              eq_refl)
    as (l & d & t & Hl & Hd & _ & Hid & _ & _ & _ & Hs & _).
  exists l, d. repeat split; assumption.
Defined.

(** Every row of a state reached from the empty database is stored
    under its own id. *)
Lemma run_row_id {analyzers : Analyzers} (rs : list request) (i : Z) (f : Feedback.t) :
  feedbacks (run rs) !! i = Some f → Feedback.id f = i.
Proof.
  revert i f. unfold run. apply (rows_invariant (λ i f, Feedback.id f = i)).
  - intros i f. by destruct f.
  - intros data now row an i E.
    by apply new_feedback_Ok in E
      as (m & t & r & c & conf & p & p' & sid & _ & _ & _ & _ & _ & _ & _ & _ & -> & _).
  - intros i f. simpl. by rewrite lookup_empty.
Qed.

(** X12. Once an item is resolved, the listing filtered on
    [status=Resolved] has an entry with its id and the listing filtered
    on [status=New] has none. *)
Theorem resolved_item_changes_listing {analyzers : Analyzers} (rs : list request)
    (feedback_id : Z) (f : Feedback.t) :
  feedbacks (run rs) !! feedback_id = Some f →
  (∃ l d, get_feedback (status_args "Resolved") (resolve_feedback feedback_id (run rs)).2
          = Json 200 l ∧
          d ∈ l ∧ d !! "id" = Some (JInt feedback_id) ∧
          d !! "status" = Some (JStr "Resolved")) ∧
  (∃ l, get_feedback (status_args "New") (resolve_feedback feedback_id (run rs)).2
        = Json 200 l ∧
        ∀ d, d ∈ l → d !! "id" ≠ Some (JInt feedback_id)).
Proof.
  intros Hf.
  assert (Hst : feedbacks (resolve_feedback feedback_id (run rs)).2
                = <[feedback_id := Feedback.with_status (Some "Resolved") f]>
                    (feedbacks (run rs))).
  { unfold resolve_feedback. by rewrite Hf. }
  assert (Hrun : (resolve_feedback feedback_id (run rs)).2
                 = run (rs ++ [PostResolve feedback_id])).
  { unfold run. by rewrite foldl_app. }
  split.
  - eexists _, (feedback_dict (Feedback.with_status (Some "Resolved") f)).
    split; [reflexivity|]. split.
    + apply (listing_elem (resolve_feedback feedback_id (run rs)).2
               [StatusEq "Resolved"]); [reflexivity|].
      exists feedback_id, (Feedback.with_status (Some "Resolved") f).
      split; [by rewrite Hst, lookup_insert_eq|]. by destruct f.
    + rewrite <- (run_row_id rs feedback_id f Hf) at 1. by destruct f.
  - eexists. split; [reflexivity|]. intros d Hd.
    apply (listing_elem (resolve_feedback feedback_id (run rs)).2
             [StatusEq "New"]) in Hd; [|reflexivity].
    destruct Hd as (i & g & Hg & Hp & ->).
    change (feedback_dict g !! "id") with (Some (JInt (Feedback.id g))).
    intros [= Hi].
    assert (i = feedback_id) as ->.
    { rewrite <- Hi. symmetry. apply (run_row_id (rs ++ [PostResolve feedback_id])).
      by rewrite <- Hrun. }
    rewrite Hst, lookup_insert_eq in Hg. injection Hg as <-.
    by destruct f.
Qed.

Lemma resolved_item_changes_listing_witness :
  ∃ l, get_feedback (status_args "New")
         (resolve_feedback 1
            (run (analyzers := constant_analyzers Float.lit_0_5)
               [PostFeedback sample_payload sample_time])).2 = Json 200 l ∧
       ∀ d, d ∈ l → d !! "id" ≠ Some (JInt 1).
Proof.
  exact (proj2 (resolved_item_changes_listing
                  (analyzers := constant_analyzers Float.lit_0_5)
                  [PostFeedback sample_payload sample_time] 1 _ eq_refl)).
Defined.

(** ** What the filter builder builds *)


Lemma py_int_nonempty (s : string) (n : Z) : py_int s = Ok n → s ≠ EmptyString.
Proof. by intros E ->. Qed.

Lemma given_None_inv (o : option string) :
  given o = None → o = None ∨ o = Some EmptyString.
Proof.
  unfold given, str_truthy. destruct o as [s|]; [|auto].
  case_bool_decide as Hs; simpl; [|done]. rewrite Hs. auto.
Qed.

Lemma passes_app (st : state) (q1 q2 : Query) (f : Feedback.t) :
  passes st (q1 ++ q2) f = passes st q1 f && passes st q2 f.
Proof. apply forallb_app. Qed.

(** The query that is built, parameter by parameter. *)
Lemma build_filtered_query_Some (a : Args.t) (q : Query) :
  build_filtered_query a = Ok (Some q) →
  ∃ qs qe qi,
    q = match given (Args.area a) with Some x => [StoreAreaEq x] | None => [] end
        ++ (qs ++ qe ++ qi)
        ++ match given (Args.status a) with Some x => [StatusEq x] | None => [] end ∧
    match given (Args.start a) with
    | Some s => ∃ d, strptime_ymd s = Ok d ∧ qs = [TimestampGe d]
    | None => qs = []
    end ∧
    match given (Args.end_ a) with
    | Some s => ∃ d b, strptime_ymd s = Ok d ∧ date_add_day d = Ok b ∧
                       qe = [TimestampLt b]
    | None => qe = []
    end ∧
    match given (Args.store_id a) with
    | Some s => ∃ n, py_int s = Ok n ∧ qi = [StoreIdEq n]
    | None => qi = []
    end.
Proof.
  rewrite build_filtered_query_unfold. intros E.
  destruct (given (Args.start a)) as [s0|];
    [destruct (strptime_ymd s0) as [d0|e0] eqn:E0; simpl in E;
       [|destruct e0; congruence]|];
    (destruct (given (Args.end_ a)) as [s1|];
     [destruct (strptime_ymd s1) as [d1|e1] eqn:E1; simpl in E;
        [destruct (date_add_day d1) as [b1|e1] eqn:A1; simpl in E;
           [|destruct e1; congruence]
        |destruct e1; congruence]|]);
    (destruct (given (Args.store_id a)) as [s2|];
     [destruct (py_int s2) as [n2|e2] eqn:E2; simpl in E;
        [|destruct e2; congruence]|]);
    simpl in E; injection E as <-;
    eexists _, _, _; (split; [|split; [|split]]); eauto; simpl; eauto.
Qed.

Lemma passes_singleton (st : state) (c : criterion) (f : Feedback.t) :
  passes st [c] f = sql_matches st f c.
Proof. unfold passes. simpl. apply andb_true_r. Qed.

Lemma area_matches (st : state) (f : Feedback.t) (x : string) :
  sql_matches st f (StoreAreaEq x) = true ↔
  ∃ n s, Feedback.store_id f = JInt n ∧ stores st !! n = Some s ∧
         Store.area s = JStr x.
Proof.
  simpl. split.
  - destruct (Feedback.store_id f) as [| |n| | | |]; try done.
    destruct (stores st !! n) as [s|] eqn:Hs; [|done].
    unfold is_str. destruct (Store.area s) as [| | | |y| |] eqn:Ha; try done.
    intros ->%bool_decide_eq_true. by exists n, s.
  - intros (n & s & -> & -> & Ha). unfold is_str. rewrite Ha.
    by apply bool_decide_eq_true.
Qed.

(** X13. The query built from a request is the conjunction of the
    filters supplied: an item with a well-formed timestamp passes it
    exactly when its store has the area asked for, its day is not before
    [start] nor after [end], its store id is the integer asked for and
    its status the one asked for, each of these for the parameters that
    are supplied and not empty. *)
Theorem query_is_conjunction_of_filters (a : Args.t) (q : Query) (st : state)
    (f : Feedback.t) :
  build_filtered_query a = Ok (Some q) →
  valid_datetime (Feedback.timestamp f) = true →
  passes st q f = true ↔
    (∀ x, Args.area a = Some x → x ≠ EmptyString →
          ∃ n s, Feedback.store_id f = JInt n ∧ stores st !! n = Some s ∧
                 Store.area s = JStr x) ∧
    (∀ x d, Args.start a = Some x → strptime_ymd x = Ok d →
            date_leb d (dt_date (Feedback.timestamp f)) = true) ∧
    (∀ x d, Args.end_ a = Some x → strptime_ymd x = Ok d →
            date_leb (dt_date (Feedback.timestamp f)) d = true) ∧
    (∀ x n, Args.store_id a = Some x → py_int x = Ok n →
            Feedback.store_id f = JInt n) ∧
    (∀ x, Args.status a = Some x → x ≠ EmptyString → Feedback.status f = Some x).
Proof.
  intros (qs & qe & qi & -> & Hs & He & Hi)%build_filtered_query_Some Hv.
  assert (Hday : valid_date (dt_date (Feedback.timestamp f)) = true)
    by (by apply andb_true_iff in Hv as [[? _]%andb_true_iff _]).
  rewrite !passes_app, !andb_true_iff.
  assert (Harea :
    passes st match given (Args.area a) with
              | Some x => [StoreAreaEq x] | None => [] end f = true ↔
    ∀ x, Args.area a = Some x → x ≠ EmptyString →
         ∃ n s, Feedback.store_id f = JInt n ∧ stores st !! n = Some s ∧
                Store.area s = JStr x).
  { destruct (given (Args.area a)) as [x|] eqn:G.
    - apply given_inv in G as [G Hx]. rewrite passes_singleton, area_matches.
      split; [|intros H; by apply H].
      intros H y Hy _. assert (y = x) as -> by congruence. exact H.
    - split; [|done]. intros _ x Hx Hne.
      apply given_None_inv in G as [G|G]; congruence. }
  assert (Hstart :
    passes st qs f = true ↔
    ∀ x d, Args.start a = Some x → strptime_ymd x = Ok d →
           date_leb d (dt_date (Feedback.timestamp f)) = true).
  { destruct (given (Args.start a)) as [x|] eqn:G.
    - destruct Hs as (d & Ed & ->). apply given_inv in G as [G Hx].
      rewrite passes_singleton. simpl. rewrite datetime_ge_midnight by done.
      split; [|intros H; by eapply H].
      intros H y d' Hy Ed'. assert (y = x) as -> by congruence.
      assert (d' = d) as -> by congruence. exact H.
    - subst qs. split; [|done]. intros _ x d Hx Ed.
      apply given_None_inv in G as [G|G]; [congruence|].
      rewrite G in Hx. injection Hx as <-. discriminate Ed. }
  assert (Hend :
    passes st qe f = true ↔
    ∀ x d, Args.end_ a = Some x → strptime_ymd x = Ok d →
           date_leb (dt_date (Feedback.timestamp f)) d = true).
  { destruct (given (Args.end_ a)) as [x|] eqn:G.
    - destruct He as (d & b & Ed & Ea & ->). apply given_inv in G as [G Hx].
      rewrite passes_singleton. simpl. rewrite datetime_lt_midnight by done.
      rewrite (before_next_day _ d b);
        [|done|by eapply strptime_ymd_valid|done].
      split; [|intros H; by eapply H].
      intros H y d' Hy Ed'. assert (y = x) as -> by congruence.
      assert (d' = d) as -> by congruence. exact H.
    - subst qe. split; [|done]. intros _ x d Hx Ed.
      apply given_None_inv in G as [G|G]; [congruence|].
      rewrite G in Hx. injection Hx as <-. discriminate Ed. }
  assert (Hstore :
    passes st qi f = true ↔
    ∀ x n, Args.store_id a = Some x → py_int x = Ok n →
           Feedback.store_id f = JInt n).
  { destruct (given (Args.store_id a)) as [x|] eqn:G.
    - destruct Hi as (n & En & ->). apply given_inv in G as [G Hx].
      rewrite passes_singleton. simpl.
      split.
      + intros H y n' Hy En'. assert (n' = n) as -> by congruence.
        destruct (Feedback.store_id f) as [| |k| | | |]; try done.
        by apply Z.eqb_eq in H as ->.
      + intros H. rewrite (H x n) by done. apply Z.eqb_refl.
    - subst qi. split; [|done]. intros _ x n Hx En.
      apply given_None_inv in G as [G|G]; [congruence|].
      rewrite G in Hx. injection Hx as <-. discriminate En. }
  assert (Hstatus :
    passes st match given (Args.status a) with
              | Some x => [StatusEq x] | None => [] end f = true ↔
    ∀ x, Args.status a = Some x → x ≠ EmptyString → Feedback.status f = Some x).
  { destruct (given (Args.status a)) as [x|] eqn:G.
    - apply given_inv in G as [G Hx]. rewrite passes_singleton. simpl.
      split.
      + intros H y Hy _. assert (y = x) as -> by congruence.
        destruct (Feedback.status f) as [z|]; [|done].
        by apply bool_decide_eq_true in H as ->.
      + intros H. rewrite (H x) by done. by apply bool_decide_eq_true.
    - split; [|done]. intros _ x Hx Hne.
      apply given_None_inv in G as [G|G]; congruence. }
  rewrite Harea, Hstart, Hend, Hstore, Hstatus. tauto.
Qed.

Lemma query_is_conjunction_of_filters_witness :
  let a := Args.Build (Some "2024-01-01") (Some "2024-01-01") None None (Some "New") in
  let f := sample_row 1 Float.lit_0_5 "New" in
  ∃ q, build_filtered_query a = Ok (Some q) ∧ passes initial_state q f = true.
Proof.
  intros a f. eexists. split; [reflexivity|].
  apply (query_is_conjunction_of_filters a _ initial_state f eq_refl eq_refl).
  repeat split.
  - intros x [=].
  - intros x d [= <-] [= <-]. reflexivity.
  - intros x d [= <-] [= <-]. reflexivity.
  - intros x n [=].
  - by intros x [= <-] _.
Defined.




(** ** Counts that add up *)

Lemma count_of_key {K} `{EqDecision K} (x : K) (ks : list K) :
  NoDup ks → x ∈ ks →
  sum_list_with (λ k, if decide (x = k) then 1%nat else 0%nat) ks = 1%nat.
Proof.
  induction 1 as [|k ks Hk Hnd IH]; [by intros ?%elem_of_nil|].
  simpl. intros [->|Hx]%elem_of_cons.
  - rewrite decide_True by done.
    assert (sum_list_with (λ k0, if decide (k = k0) then 1%nat else 0%nat) ks = 0%nat)
      as ->; [|done].
    clear IH Hnd. induction ks as [|k' ks IH]; [done|]. simpl.
    apply not_elem_of_cons in Hk as [Hne Hk].
    rewrite decide_False by done. by apply IH.
  - rewrite decide_False by (by intros ->). by apply IH.
Qed.

(** The groups of a GROUP BY share out the rows. *)
Lemma groups_partition {A K} `{EqDecision K} (key : A → K) (rows : list A)
    (ks : list K) :
  NoDup ks → (∀ r, r ∈ rows → key r ∈ ks) →
  sum_list_with (λ k, length (filter (λ r, key r = k) rows)) ks = length rows.
Proof.
  intros Hnd. induction rows as [|r rows IH]; intros Hks.
  - clear. induction ks as [|k ks IHk]; [done|exact IHk].
  - assert (Hsplit : ∀ l : list K,
      sum_list_with (λ k, length (filter (λ r0, key r0 = k) (r :: rows))) l
      = (sum_list_with (λ k, if decide (key r = k) then 1 else 0) l
         + sum_list_with (λ k, length (filter (λ r0, key r0 = k) rows)) l)%nat).
    { induction l as [|k l IHl]; [done|]. simpl. rewrite IHl.
      destruct (decide (key r = k)) as [E|E].
      - rewrite filter_cons_True by done. simpl. lia.
      - rewrite filter_cons_False by done. lia. }
    rewrite Hsplit, count_of_key; [|done|apply Hks; by left].
    rewrite IH; [done|]. intros r' Hr'. apply Hks. by right.
Qed.

Lemma sum_of_counts_list (l : list (option string * gmap string json))
    (h : option string * gmap string json → nat) :
  Forall (λ kv, entry_count kv.2 = Z.of_nat (h kv)) l →
  foldr (λ kv acc, entry_count kv.2 + acc) 0 l = Z.of_nat (sum_list_with h l).
Proof.
  induction 1 as [|kv l Hkv Hl IH]; [done|]. simpl. rewrite IH, Hkv. lia.
Qed.

Lemma sum_list_with_fmap' {A B} (h : B → nat) (g : A → B) (l : list A) :
  sum_list_with h (g <$> l) = sum_list_with (λ x, h (g x)) l.
Proof. induction l as [|x l IH]; [done|]. csimpl. by rewrite IH. Qed.

(** X15. The counts of [feedback_by_category] add up to
    [total_feedback]: every row of the query is counted in the entry of
    one category, and in one only. *)
Theorem category_counts_sum_to_total (rows : list Feedback.t) :
  sum_of_counts (feedback_by_category (metrics_of rows))
  = total_feedback (metrics_of rows).
Proof.
  simpl. unfold sum_of_counts.
  set (ks := remove_dups (Feedback.category <$> rows)).
  assert (Hperm : map_to_list (categories_of rows)
                  ≡ₚ (λ k, (k, category_entry rows k)) <$> ks).
  { apply NoDup_Permutation.
    - apply NoDup_map_to_list.
    - apply NoDup_fmap_2; [by intros k k' [= ->]|apply NoDup_remove_dups].
    - intros [k e]. split.
      + intros Hke%elem_of_map_to_list. rewrite categories_of_lookup in Hke.
        case_bool_decide as Hk; [|done]. injection Hke as <-.
        apply list_elem_of_fmap. exists k. split; [done|].
        by apply elem_of_remove_dups.
      + intros (k' & [= -> ->] & Hk')%list_elem_of_fmap.
        apply elem_of_map_to_list. rewrite categories_of_lookup.
        unfold ks in Hk'. rewrite elem_of_remove_dups in Hk'.
        by rewrite bool_decide_eq_true_2. }
  rewrite (sum_of_counts_list _ (λ kv, length (in_category kv.1 rows))).
  - rewrite Hperm. f_equal.
    rewrite <- (groups_partition Feedback.category rows ks).
    + exact (sum_list_with_fmap' (λ kv, length (in_category kv.1 rows))
               (λ k, (k, category_entry rows k)) ks).
    + apply NoDup_remove_dups.
    + intros r Hr. unfold ks. rewrite elem_of_remove_dups.
      by apply list_elem_of_fmap_2.
  - apply Forall_forall. intros [k e] Hke. rewrite Hperm in Hke.
    apply list_elem_of_fmap in Hke as (k' & [= -> ->] & _). reflexivity.
Qed.

Lemma labels_partition (rows : list Feedback.t) :
  Forall labelled rows →
  (length (with_sentiment "Positive" rows) + length (with_sentiment "Negative" rows)
   + length (with_sentiment "Neutral" rows))%nat = length rows.
Proof.
  unfold with_sentiment.
  induction 1 as [|f rows (s & Hs & Hf) Hrows IH]; [done|].
  rewrite !elem_of_cons in Hs.
  destruct Hs as [->|[->|[->|Hs]]]; [| | |by apply elem_of_nil in Hs];
    repeat match goal with
           | |- context [filter (λ f0, Feedback.sentiment f0 = Some ?l) (f :: rows)] =>
               first [rewrite (filter_cons_True (λ f0, Feedback.sentiment f0 = Some l))
                        by (by rewrite Hf)
                     |rewrite (filter_cons_False (λ f0, Feedback.sentiment f0 = Some l))
                        by (by rewrite Hf)]
           end; simpl; lia.
Qed.

Lemma run_labelled {analyzers : Analyzers} (rs : list request) (i : Z)
    (f : Feedback.t) :
  feedbacks (run rs) !! i = Some f → labelled f.
Proof.
  revert i f. unfold run. apply (rows_invariant (λ _ f, labelled f)).
  - intros i f (s & Hs & Hf). exists s. by destruct f.
  - intros data now row an i E.
    apply new_feedback_Ok in E
      as (m & t & r & c & conf & p & p' & sid & _ & _ & _ & _ & _ & _ & _ & _ & -> & _).
    exists (sentiment_label (polarity t)). split; [|done].
    unfold sentiment_label.
    destruct (Float.gt _ _); [set_solver|]. destruct (Float.lt _ _); set_solver.
  - intros i f. simpl. by rewrite lookup_empty.
Qed.

(** X16. On a database that the service has built, the three counts of
    [feedback_by_sentiment] add up to [total_feedback], whatever the
    filter: every stored item carries one of the three labels. *)
Theorem sentiment_counts_sum_to_total {analyzers : Analyzers} (rs : list request)
    (a : Args.t) (code : Z) (m : metrics) :
  get_metrics a (run rs) = Json code m →
  ∃ p n u,
    feedback_by_sentiment m !! "Positive" = Some p ∧
    feedback_by_sentiment m !! "Negative" = Some n ∧
    feedback_by_sentiment m !! "Neutral" = Some u ∧
    p + n + u = total_feedback m.
Proof.
  intros (q & rows & _ & Hr & _ & ->)%get_metrics_Json.
  eexists _, _, _. simpl.
  rewrite !sentiments_of_lookup. repeat (split; [reflexivity|]).
  rewrite <- (labels_partition rows); [lia|].
  apply Forall_forall. intros f Hf.
  destruct (run_query_rows _ _ _ f Hr Hf) as (_ & i & Hi).
  by eapply run_labelled.
Qed.

Lemma sentiment_counts_sum_to_total_witness :
  ∃ p n u,
    feedback_by_sentiment
      (metrics_of
         (snd <$> map_to_list
            (feedbacks (run (analyzers := constant_analyzers Float.lit_0_5)
                          [PostFeedback sample_payload sample_time]))))
      !! "Positive" = Some p ∧ p + n + u = 1.
Proof.
  destruct (sentiment_counts_sum_to_total
              (analyzers := constant_analyzers Float.lit_0_5)
              [PostFeedback sample_payload sample_time] no_args 200 _ eq_refl)
    as (p & n & u & Hp & _ & _ & Hsum).
  exists p, n, u. split; [exact Hp | exact Hsum].
Defined.

(** ** Stores *)

(** What a successful registration looks like. *)
Lemma add_store_Json (data : json) (st : state) (code : Z)
    (body : gmap string json) (st' : state) :
  add_store data st = (Json code body, st') →
  ∃ m name name' area,
    data = JObj m ∧ m !! "name" = Some name ∧
    sqlite_bind name ≫= not_null = Ok name' ∧
    sqlite_bind (default JNull (m !! "area")) = Ok area ∧
    code = 201 ∧
    body = {[ "message" := JStr "Store added";
              "id" := JInt (next_rowid (stores st)) ]} ∧
    st' = State (feedbacks st)
            (<[next_rowid (stores st) :=
                 Store.Build (next_rowid (stores st)) name' area]> (stores st))
            (emitted st).
Proof.
  unfold add_store. intros E.
  destruct (py_truthy data); simpl in E; [|discriminate E].
  destruct (py_contains "name" data) as [[]|]; simpl in E; try discriminate E.
  destruct data as [| | | | |l|m]; simpl in E; try discriminate E.
  destruct (m !! "name") as [name|] eqn:Hn; simpl in E; [|discriminate E].
  destruct (sqlite_bind name ≫= not_null) as [name'|] eqn:Hb; simpl in E;
    [|discriminate E].
  destruct (sqlite_bind (default JNull (m !! "area"))) as [area|] eqn:Ha;
    simpl in E; [|discriminate E].
  injection E as <- <- <-. by exists m, name, name', area.
Qed.

(** X17. A registration does all of its work or none of it, and never
    touches the feedback items or emits an event: it answers 201 and
    stores one store under an id that was free, or it answers 400 or
    fails and the state is as it was. *)
Theorem store_registration_is_all_or_nothing (data : json) (st : state) :
  (∃ i store,
     add_store data st
     = (Json 201 {[ "message" := JStr "Store added"; "id" := JInt i ]},
        State (feedbacks st) (<[i := store]> (stores st)) (emitted st))
     ∧ stores st !! i = None ∧ Store.id store = i ∧ Store.name store ≠ JNull)
  ∨ add_store data st = (JsonError 400 "Missing required data: name", st)
  ∨ (∃ e, add_store data st = (Unhandled e, st)).
Proof.
  destruct (add_store data st) as [[code body|code err|e] st'] eqn:E.
  - left. apply add_store_Json in E
      as (m & name & name' & area & _ & _ & Hb & _ & -> & -> & ->).
    eexists _, _. split; [reflexivity|]. split; [apply next_rowid_fresh|].
    split; [done|]. simpl. by eapply bound_not_null.
  - right. left. revert E. unfold add_store.
    repeat match goal with
           | |- context [match ?x with _ => _ end] => destruct x; simpl
           end; congruence.
  - right. right. exists e. revert E. unfold add_store.
    repeat match goal with
           | |- context [match ?x with _ => _ end] => destruct x; simpl
           end; congruence.
Qed.

(** The dicts of a store listing. *)
Lemma get_stores_elem (area : option string) (st : state) :
  ∃ l, get_stores area st = Json 200 l ∧
       ∀ d, d ∈ l ↔
            ∃ i s, stores st !! i = Some s ∧ d = store_dict s ∧
                   ∀ x, area = Some x → x ≠ EmptyString → Store.area s = JStr x.
Proof.
  unfold get_stores. eexists. split; [reflexivity|]. intros d.
  rewrite list_elem_of_fmap.
  destruct (given area) as [x|] eqn:G.
  - apply given_inv in G as [-> Hx]. setoid_rewrite list_elem_of_filter.
    setoid_rewrite list_elem_of_fmap. split.
    + intros (s & -> & Hs & [i s'] & -> & Hi%elem_of_map_to_list).
      exists i, s'. split; [done|]. split; [done|]. intros y [= <-] _.
      simpl in Hs. unfold is_str in Hs.
      destruct (Store.area s') as [| | | |z| |]; try done.
      by apply bool_decide_eq_true in Hs as ->.
    + intros (i & s & Hi & -> & Hs). exists s. split; [done|]. split.
      * rewrite (Hs x) by done. simpl. by apply bool_decide_eq_true.
      * exists (i, s). split; [done|]. by apply elem_of_map_to_list.
  - setoid_rewrite list_elem_of_fmap. split.
    + intros (s & -> & [i s'] & -> & Hi%elem_of_map_to_list).
      exists i, s'. split; [done|]. split; [done|]. intros x -> Hx.
      apply given_None_inv in G as [G|G]; congruence.
    + intros (i & s & Hi & -> & _). exists s. split; [done|].
      exists (i, s). split; [done|]. by apply elem_of_map_to_list.
Qed.

(** X18. The store listing returns the stores of the table, all of them
    when [area] is absent or empty, and otherwise those whose area is
    the string asked for: a store without area, or with another one, is
    left out. *)
Theorem store_listing_filters_by_area (area : option string) (st : state) :
  ∃ l, get_stores area st = Json 200 l ∧
       (∀ d, d ∈ l ↔
             ∃ i s, stores st !! i = Some s ∧ d = store_dict s ∧
                    ∀ x, area = Some x → x ≠ EmptyString → Store.area s = JStr x) ∧
       get_stores (Some EmptyString) st = get_stores None st ∧
       (length l ≤ size (stores st))%nat.
Proof.
  destruct (get_stores_elem area st) as (l & Hl & Hd).
  exists l. split; [done|]. split; [done|]. split; [reflexivity|].
  unfold get_stores in Hl. injection Hl as <-.
  rewrite length_fmap, <- length_map_to_list, <- (length_fmap snd).
  destruct (given area); [apply length_filter|done].
Qed.

(** X19. A store registered with a name and an area is found by the
    listing for that area, under the id of the answer, and is not in
    the listing for any other area. *)
Theorem registered_store_is_listed (m : gmap string json) (a b : string)
    (st : state) (code : Z) (body : gmap string json) (st' : state) :
  add_store (JObj m) st = (Json code body, st') →
  m !! "area" = Some (JStr a) → a ≠ EmptyString → b ≠ EmptyString → a ≠ b →
  ∃ i name la lb,
    body !! "id" = Some (JInt i) ∧
    get_stores (Some a) st' = Json 200 la ∧
    get_stores (Some b) st' = Json 200 lb ∧
    {[ "id" := JInt i; "name" := name; "area" := JStr a ]} ∈ la ∧
    {[ "id" := JInt i; "name" := name; "area" := JStr a ]} ∉ lb.
Proof.
  intros E Ha Hane Hbne Hab.
  apply add_store_Json in E
    as (m' & name & name' & area & [= <-] & _ & _ & Hbind & _ & -> & ->).
  rewrite Ha in Hbind. injection Hbind as <-.
  destruct (get_stores_elem (Some a) (State (feedbacks st)
              (<[next_rowid (stores st) :=
                   Store.Build (next_rowid (stores st)) name' (JStr a)]> (stores st))
              (emitted st))) as (la & Hla & Hda).
  destruct (get_stores_elem (Some b) (State (feedbacks st)
              (<[next_rowid (stores st) :=
                   Store.Build (next_rowid (stores st)) name' (JStr a)]> (stores st))
              (emitted st))) as (lb & Hlb & Hdb).
  exists (next_rowid (stores st)), name', la, lb.
  split; [reflexivity|]. split; [done|]. split; [done|]. split.
  - apply Hda. eexists _, _. split; [apply lookup_insert_eq|].
    split; [reflexivity|]. by intros x [= <-] _.
  - intros (i & s & _ & Hd & Hs)%Hdb.
    specialize (Hs b eq_refl Hbne).
    assert (store_dict s !! "area" = Some (JStr a)) as Hs' by (by rewrite <- Hd).
    change (store_dict s !! "area") with (Some (Store.area s)) in Hs'.
    congruence.
Qed.

Lemma registered_store_is_listed_witness :
  let data := JObj {[ "name" := JStr "Diner"; "area" := JStr "Downtown" ]} in
  ∃ i name la lb,
    ({[ "message" := JStr "Store added"; "id" := JInt 1 ]} : gmap string json)
      !! "id" = Some (JInt i) ∧
    get_stores (Some "Downtown") (add_store data initial_state).2 = Json 200 la ∧
    get_stores (Some "Uptown") (add_store data initial_state).2 = Json 200 lb ∧
    {[ "id" := JInt i; "name" := name; "area" := JStr "Downtown" ]} ∈ la ∧
    {[ "id" := JInt i; "name" := name; "area" := JStr "Downtown" ]} ∉ lb.
Proof.
  intros data.
  apply (registered_store_is_listed
           {[ "name" := JStr "Diner"; "area" := JStr "Downtown" ]}
           "Downtown" "Uptown" initial_state 201
           {[ "message" := JStr "Store added"; "id" := JInt 1 ]}
           (add_store data initial_state).2);
    (reflexivity || discriminate).
Defined.

Lemma sqlite_bind_int (n : Z) (v : json) : sqlite_bind (JInt n) = Ok v → v = JInt n.
Proof. simpl. destruct (_ && _); by intros [= <-]. Qed.

Lemma area_query (a : string) :
  a ≠ EmptyString → build_filtered_query (area_args a) = Ok (Some [StoreAreaEq a]).
Proof.
  intros Ha. rewrite build_filtered_query_unfold. simpl. by rewrite given_Some.
Qed.

(** X20. An item ingested with the id of a store is found by the listing
    filtered on the area of that store and by no listing filtered on
    another area; the link is the [store_id] of the payload, looked up
    in the stores when the listing runs. *)
Theorem item_is_listed_under_the_area_of_its_store {analyzers : Analyzers}
    (m : gmap string json) (now : datetime) (st : state) (code : Z) (body : added)
    (st' : state) (n : Z) (s : Store.t) (a b : string) :
  add_feedback (JObj m) now st = (Json code body, st') →
  m !! "store_id" = Some (JInt n) →
  stores st !! n = Some s → Store.area s = JStr a →
  a ≠ EmptyString → b ≠ EmptyString → a ≠ b →
  ∃ la lb d,
    get_feedback (area_args a) st' = Json 200 la ∧
    get_feedback (area_args b) st' = Json 200 lb ∧
    d !! "id" = Some (JInt (added_id body)) ∧
    d !! "store_id" = Some (JInt n) ∧
    d ∈ la ∧ d ∉ lb.
Proof.
  intros E Hn Hs Ha Hane Hbne Hab.
  apply add_feedback_Json in E as (row & an & E & _ & -> & Hf & Hst).
  apply new_feedback_Ok in E
    as (m' & t & r & c & conf & p & p' & sid & [= <-] & _ & _ & _ & _ & _ & _
        & Hsid & -> & ->).
  rewrite Hn in Hsid. apply sqlite_bind_int in Hsid as ->.
  set (g := Feedback.Build (next_rowid (feedbacks st)) p' (JStr t) now (Some c)
              (Some (sentiment_label (polarity t))) (sqlite_real (polarity t))
              (JInt n) (Some "New")) in *.
  assert (Hrun : ∀ x, run_query st' [StoreAreaEq x]
                      = Ok (filter (λ f, passes st' [StoreAreaEq x] f = true)
                              (snd <$> map_to_list (feedbacks st'))))
    by reflexivity.
  exists (feedback_dict <$> merge_sort by_timestamp_desc
            (filter (λ f, passes st' [StoreAreaEq a] f = true)
               (snd <$> map_to_list (feedbacks st')))),
         (feedback_dict <$> merge_sort by_timestamp_desc
            (filter (λ f, passes st' [StoreAreaEq b] f = true)
               (snd <$> map_to_list (feedbacks st')))),
         (feedback_dict g).
  split; [unfold get_feedback; by rewrite area_query, Hrun|].
  split; [unfold get_feedback; by rewrite area_query, Hrun|].
  split; [reflexivity|]. split; [reflexivity|]. split.
  - apply (listing_elem st' [StoreAreaEq a]); [apply Hrun|].
    exists (next_rowid (feedbacks st)), g.
    split; [rewrite Hf; apply lookup_insert_eq|]. split; [|done].
    rewrite passes_singleton. apply area_matches. exists n, s.
    by rewrite Hst.
  - intros Hd. apply (listing_elem st' [StoreAreaEq b]) in Hd; [|apply Hrun].
    destruct Hd as (i & g' & _ & Hp & Hd).
    rewrite passes_singleton in Hp.
    apply area_matches in Hp as (n' & s' & Hn' & Hs' & Hb).
    assert (feedback_dict g' !! "store_id" = Some (JInt n)) as Hsid
      by (by rewrite <- Hd).
    change (feedback_dict g' !! "store_id") with (Some (Feedback.store_id g')) in Hsid.
    rewrite Hn' in Hsid. injection Hsid as ->.
    rewrite Hst, Hs in Hs'. injection Hs' as <-. congruence.
Qed.

Lemma item_is_listed_under_the_area_of_its_store_witness :
  let st := State ∅ {[ 1 := Store.Build 1 (JStr "Diner") (JStr "Downtown") ]} [] in
  let data := JObj {[ "platform" := JStr "web"; "text" := JStr "Too slow";
                      "store_id" := JInt 1 ]} in
  ∃ la lb d,
    get_feedback (area_args "Downtown")
      (add_feedback (analyzers := constant_analyzers Float.zero) data sample_time st).2
    = Json 200 la ∧
    get_feedback (area_args "Uptown")
      (add_feedback (analyzers := constant_analyzers Float.zero) data sample_time st).2
    = Json 200 lb ∧
    d !! "id" = Some (JInt 1) ∧ d !! "store_id" = Some (JInt 1) ∧ d ∈ la ∧ d ∉ lb.
Proof.
  intros st data.
  apply (item_is_listed_under_the_area_of_its_store
           (analyzers := constant_analyzers Float.zero)
           {[ "platform" := JStr "web"; "text" := JStr "Too slow";
              "store_id" := JInt 1 ]}
           sample_time st 201
           (Added "Feedback added successfully" 1
              (Analysis.Build "Quality of food" Float.lit_0_5 "Neutral" Float.zero))
           (add_feedback (analyzers := constant_analyzers Float.zero)
              data sample_time st).2
           1 (Store.Build 1 (JStr "Diner") (JStr "Downtown")) "Downtown" "Uptown");
    (reflexivity || discriminate).
Defined.

(** ** The scraper *)

Lemma post_feedback_to_api_attempts (server : list json → json → reply)
    (platform text : string) (store_id : Z) (w : world) :
  attempts (post_feedback_to_api server platform text store_id w).2
  = attempts w ++ [scrape_payload platform text store_id].
Proof.
  unfold post_feedback_to_api.
  destruct (server _ _) as [c| |]; [destruct (c =? 201)| |]; reflexivity.
Qed.

(** The call returns [False] for a failed connection and for nothing
    else. *)
Lemma post_feedback_to_api_False (server : list json → json → reply)
    (platform text : string) (store_id : Z) (w : world) :
  (post_feedback_to_api server platform text store_id w).1 = Returned false ↔
  server (attempts w) (scrape_payload platform text store_id) = ConnectionError.
Proof.
  unfold post_feedback_to_api.
  destruct (server _ _) as [c| |]; [destruct (c =? 201)| |]; simpl; split; congruence.
Qed.

(** X21. The scraper posts the reviews in the order found, one payload
    each, with the stripped author as platform, the stripped quote as
    text and the store id 1, up to the review at which it ends. It goes
    through all of them when it finishes; it breaks only after a post
    whose connection failed; it crashes only at a review that lacks one
    of the two tags, before posting it. *)
Theorem scraper_posts_a_prefix (server : list json → json → reply)
    (reviews : list (option string * option string)) (w : world) :
  ∃ posted rest,
    reviews = (review_tags <$> posted) ++ rest ∧
    attempts (post_reviews server reviews w).2
    = attempts w ++ (review_payload <$> posted) ∧
    ((post_reviews server reviews w).1 = Finished → rest = []) ∧
    ((post_reviews server reviews w).1 = Stopped →
     ∃ before r, posted = before ++ [r] ∧
                 server (attempts w ++ (review_payload <$> before)) (review_payload r)
                 = ConnectionError) ∧
    ((post_reviews server reviews w).1 = Crashed →
     ∃ r rest', rest = r :: rest' ∧ (r.1 = None ∨ r.2 = None)).
Proof.
  revert w. induction reviews as [|[span small] reviews IH]; intros w.
  { exists [], []. simpl. rewrite app_nil_r. repeat split; done. }
  destruct span as [t|]; [destruct small as [a|]|].
  2: { exists [], ((Some t, None) :: reviews). simpl. rewrite app_nil_r.
       repeat split; try done. intros _. eexists _, _. split; [done|]. by right. }
  2: { exists [], ((None, small) :: reviews). simpl. rewrite app_nil_r.
       repeat split; try done. intros _. eexists _, _. split; [done|]. by left. }
  simpl.
  set (w1 := print _ w).
  pose proof (post_feedback_to_api_attempts server (py_strip a) (py_strip t) 1 w1) as Hatt.
  pose proof (post_feedback_to_api_False server (py_strip a) (py_strip t) 1 w1) as Hfalse.
  destruct (post_feedback_to_api server (py_strip a) (py_strip t) 1 w1)
    as [[[]|] w2] eqn:E; simpl in Hatt, Hfalse.
  - destruct (IH w2) as (posted & rest & -> & Hp & Hfin & Hstop & Hcrash).
    exists ((t, a) :: posted), rest. split; [done|].
    split; [rewrite Hp, Hatt; simpl; by rewrite <- app_assoc|].
    split; [done|]. split; [|done].
    intros (before & r & -> & Hr)%Hstop.
    exists ((t, a) :: before), r. split; [done|].
    rewrite Hatt in Hr. simpl in Hr. rewrite <- app_assoc in Hr. exact Hr.
  - exists [(t, a)], reviews. split; [done|]. simpl.
    split; [by rewrite Hatt|]. split; [done|]. split; [|done].
    intros _. exists [], (t, a). split; [done|]. simpl. rewrite app_nil_r.
    by apply Hfalse.
  - exists [(t, a)], reviews. split; [done|]. simpl.
    split; [by rewrite Hatt|]. done.
Qed.

(** X22. A status code other than 201 does not stop the scraper: when
    every review has its two tags and the API answers every post,
    whatever the status, all the reviews are posted and the loop runs to
    its end. *)
Theorem error_status_does_not_stop_scraper (server : list json → json → reply)
    (reviews : list (string * string)) (w : world) :
  (∀ log p, ∃ c, server log p = Replied c) →
  (post_reviews server (review_tags <$> reviews) w).1 = Finished ∧
  attempts (post_reviews server (review_tags <$> reviews) w).2
  = attempts w ++ (review_payload <$> reviews).
Proof.
  intros Hserver. revert w.
  induction reviews as [|[t a] reviews IH]; intros w.
  { simpl. by rewrite app_nil_r. }
  simpl. set (w1 := print _ w).
  pose proof (post_feedback_to_api_attempts server (py_strip a) (py_strip t) 1 w1) as Hatt.
  assert (Hret : (post_feedback_to_api server (py_strip a) (py_strip t) 1 w1).1
                 = Returned true).
  { unfold post_feedback_to_api.
    destruct (Hserver (attempts w1) (scrape_payload (py_strip a) (py_strip t) 1))
      as [c ->]. by destruct (c =? 201). }
  destruct (post_feedback_to_api server (py_strip a) (py_strip t) 1 w1) as [r w2].
  simpl in Hatt, Hret. subst r. cbv beta iota. fold (review_tags <$> reviews).
  destruct (IH w2) as [Hfin Hp]. split; [done|].
  rewrite Hp, Hatt. simpl. by rewrite <- app_assoc.
Qed.

Lemma error_status_does_not_stop_scraper_witness :
  let reviews := [("  Be yourself.  ", "Oscar Wilde"); ("So it goes.", " Kurt Vonnegut ")] in
  attempts (post_reviews (λ _ _, Replied 500) (review_tags <$> reviews) (World [] [])).2
  = [scrape_payload "Oscar Wilde" "Be yourself." 1;
     scrape_payload "Kurt Vonnegut" "So it goes." 1].
Proof.
  intros reviews.
  apply (proj2 (error_status_does_not_stop_scraper (λ _ _, Replied 500) reviews
                  (World [] []) (λ _ _, ex_intro _ 500 eq_refl))).
Defined.

(** ** The read endpoints together *)

Lemma length_remove_dups {A} `{EqDecision A} (l : list A) :
  (length (remove_dups l) ≤ length l)%nat.
Proof.
  induction l as [|x l IH]; [done|]. simpl.
  destruct (decide_rel elem_of x l); simpl; lia.
Qed.

Lemma length_trend_of (rows : list Feedback.t) :
  (length (trend_of rows) ≤ length rows)%nat.
Proof.
  unfold trend_of, daily_trend. rewrite length_fmap, merge_sort_Permutation.
  rewrite group_by_spec, !length_fmap.
  etrans; [apply length_remove_dups|]. by rewrite length_fmap.
Qed.

(** X23. The three read endpoints share their filter: on the same
    request and database they all answer 200, or all answer 400, or all
    fail with the same exception. When they answer, [total_feedback] is
    the number of items the listing returns, and the trend has no more
    entries than that. *)
Theorem read_endpoints_agree (a : Args.t) (st : state) :
  (∃ l m t,
     get_feedback a st = Json 200 l ∧ get_metrics a st = Json 200 m ∧
     get_metrics_trend a st = Json 200 t ∧
     total_feedback m = Z.of_nat (length l) ∧ (length t ≤ length l)%nat)
  ∨ (get_feedback a st = JsonError 400 "Invalid date format" ∧
     get_metrics a st = JsonError 400 "Invalid date format" ∧
     get_metrics_trend a st = JsonError 400 "Invalid date format")
  ∨ (∃ e, get_feedback a st = Unhandled e ∧ get_metrics a st = Unhandled e ∧
          get_metrics_trend a st = Unhandled e).
Proof.
  unfold get_feedback, get_metrics, get_metrics_trend.
  destruct (build_filtered_query a) as [[q|]|e];
    [|by right; left|by right; right; exists e].
  destruct (run_query st q) as [rows|e]; [|by right; right; exists e].
  left. eexists _, _, _. repeat (split; [reflexivity|]). simpl.
  rewrite length_fmap, merge_sort_Permutation. split; [done|].
  apply length_trend_of.
Qed.

(** ** Events *)

Lemma announces_step {analyzers : Analyzers} (st : state) (r : request) (e : event) :
  announces st e → announces (step st r) e.
Proof.
  intros [(i & -> & [f Hf])|(i & f & -> & Hf & Hs)].
  - left. exists i. split; [done|].
    destruct (step_keeps_row st r i f Hf) as [->| ->]; eauto.
  - right. exists i.
    destruct (step_keeps_row st r i f Hf) as [Hg|Hg].
    + by exists f.
    + exists (Feedback.with_status (Some "Resolved") f). split; [done|].
      split; [done|]. by destruct f.
Qed.

Ltac no_event :=
  exists []; rewrite app_nil_r;
  split; [reflexivity | split; [simpl; lia | constructor]].

(** The events of one request: none, or one that tells of what the
    request has just stored. *)
Lemma step_emitted {analyzers : Analyzers} (st : state) (r : request) :
  ∃ new, emitted (step st r) = emitted st ++ new ∧ (length new ≤ 1)%nat ∧
         Forall (announces (step st r)) new.
Proof.
  destruct r as [data now|feedback_id|data| | |]; simpl;
    try (no_event).
  - unfold add_feedback.
    destruct (missing_required data) as [[]|];
      try (no_event).
    destruct (new_feedback data now) as [[row an]|];
      [|no_event].
    eexists [_]. simpl. split; [reflexivity|]. split; [lia|].
    constructor; [|constructor]. left. eexists. split; [done|].
    simpl. rewrite lookup_insert_eq. by eexists.
  - unfold resolve_feedback.
    destruct (feedbacks st !! feedback_id) as [item|];
      [|no_event].
    eexists [_]. simpl. split; [reflexivity|]. split; [lia|].
    constructor; [|constructor]. right. eexists _, _. split; [done|].
    simpl. rewrite lookup_insert_eq. split; [done|]. by destruct item.
  - unfold add_store.
    repeat match goal with
           | |- context [match ?x with _ => _ end] => destruct x; simpl
           end; no_event.
Qed.

(** X24. The service emits an event only for what it has stored: after
    any sequence of requests, every [new_feedback] event names an id
    that is in the table, every [feedback_resolved] event carries the id
    of an item whose status is Resolved, and no other event was ever
    emitted. A sequence of requests emits at most one event each. *)
Theorem events_announce_what_is_stored {analyzers : Analyzers} (rs : list request) :
  Forall (announces (run rs)) (emitted (run rs)) ∧
  (length (emitted (run rs)) ≤ length rs)%nat.
Proof.
  unfold run.
  assert (H : ∀ st, Forall (announces st) (emitted st) →
                    Forall (announces (foldl step st rs)) (emitted (foldl step st rs)) ∧
                    (length (emitted (foldl step st rs))
                     ≤ length (emitted st) + length rs)%nat).
  { induction rs as [|r rs IH]; intros st Hst; [simpl; split; [done|lia]|].
    simpl. destruct (step_emitted st r) as (new & Hnew & Hlen & Hann).
    destruct (IH (step st r)) as [Hall Hl].
    - rewrite Hnew. apply Forall_app. split; [|done].
      eapply Forall_impl; [exact Hst|]. intros e. apply announces_step.
    - split; [done|]. rewrite Hnew, length_app in Hl. lia. }
  destruct (H initial_state) as [Hall Hl]; [constructor|]. split; [done|].
  simpl in Hl. lia.
Qed.
